(** * A shallow embedding of [handler.py] (Wan 2.1 image-to-video job handler)

    The handler is an asynchronous generator: it yields a sequence of event
    dictionaries while it calls a handful of external collaborators (HTTP,
    PIL, the Wan model, the video encoder, the file system, the clock).

    Modelling choices, all following the source:
    - JSON / Python values are the inductive [pyval]; dictionaries that come
      from JSON or that are yielded as events are association lists in
      insertion order; the process-wide [model_cache] is a [gmap].
    - Python floats are IEEE binary64 numbers, i.e. Rocq's primitive floats.
    - A Python [str] is a Rocq [string] (its UTF-8 bytes).  [lower] folds the
      ASCII capitals only.  Python's [str.lower] also rewrites non-ASCII code
      points, but the only ones whose lowercase form contains an ASCII letter
      are U+212A (k) and U+0130 (i), and none of the keywords the handler
      searches for contains [k] or [i]; so the keyword tests of the model and
      of the source agree on every message.
    - An exception is an instance of [Exception]: its class name and [str(e)].
      (The source's [except Exception] clauses are the only handlers.)
    - The generator body is a state-and-exception monad [M]; the state holds
      the events yielded so far, the trace of collaborator calls, the global
      [model_cache] and the number of clock readings taken.
    - Every external call site is an oracle of the environment [Env]: a
      function from the call's arguments to its outcome.
    - A job is a mapping (the platform's job envelope), and so is an event.
    - [logger] calls have no effect on events, calls or control flow and are
      left out.
    - The script ([run_test] and the [__main__] block) is the function [main]
      of [sys.argv]: the [json] module is a record of two oracles, what is
      printed is a list of lines, and the script ends normally, with an
      uncaught exception, or in [runpod.serverless.start]. *)

From Stdlib Require Import ZArith String Ascii Floats List Bool Lia Sorted.
From stdpp Require Import gmap strings pretty.
Import ListNotations.

#[local] Set Warnings "-register-all".
Local Open Scope string_scope.
Local Open Scope list_scope.
Local Open Scope Z_scope.

(** ** Python values *)

Inductive pyval : Type :=
| PNone
| PBool (b : bool)
| PInt (z : Z)
| PFloat (f : float)
| PStr (s : string)
| PList (l : list pyval)
| PDict (d : list (string * pyval)).

(** A dictionary with string keys, in insertion order. *)
Abbreviation pydict := (list (string * pyval)).

(** [d[k]] as an option: the first binding of [k]. *)
Fixpoint dict_lookup (d : pydict) (k : string) : option pyval :=
  match d with
  | [] => None
  | (k', v) :: rest => if String.eqb k' k then Some v else dict_lookup rest k
  end.

(** [d.get(k, default)] on a dictionary. *)
Definition dict_get (d : pydict) (k : string) (default : pyval) : pyval :=
  match dict_lookup d k with
  | Some v => v
  | None => default
  end.

(** [type(v).__name__] *)
Definition type_name (v : pyval) : string :=
  match v with
  | PNone => "NoneType"
  | PBool _ => "bool"
  | PInt _ => "int"
  | PFloat _ => "float"
  | PStr _ => "str"
  | PList _ => "list"
  | PDict _ => "dict"
  end.

(** [bool(v)]: Python truthiness. *)
Definition truthy (v : pyval) : bool :=
  match v with
  | PNone => false
  | PBool b => b
  | PInt z => negb (z =? 0)%Z
  | PFloat f => negb (PrimFloat.eqb f 0%float)
  | PStr s => negb (String.eqb s "")
  | PList l => match l with [] => false | _ => true end
  | PDict d => match d with [] => false | _ => true end
  end.

(** [v == s] for a string literal [s]. *)
Definition py_eq_str (v : pyval) (s : string) : bool :=
  match v with
  | PStr t => String.eqb t s
  | _ => false
  end.

(** ** Strings *)

Definition lower_char (c : ascii) : ascii :=
  let n := N_of_ascii c in
  if ((65 <=? n) && (n <=? 90))%N then ascii_of_N (n + 32) else c.

(** [s.lower()] *)
Fixpoint lower (s : string) : string :=
  match s with
  | EmptyString => EmptyString
  | String c rest => String (lower_char c) (lower rest)
  end.

(** [s.startswith(p)] *)
Fixpoint starts_with (p s : string) : bool :=
  match p, s with
  | EmptyString, _ => true
  | String a p', String b s' => Ascii.eqb a b && starts_with p' s'
  | String _ _, EmptyString => false
  end.

(** [sub in s] *)
Fixpoint contains (sub s : string) : bool :=
  starts_with sub s ||
  match s with
  | EmptyString => false
  | String _ rest => contains sub rest
  end.

(** ** Exceptions *)

Record exn : Type := mkExn { exn_class : string; exn_msg : string }.

Definition RuntimeError (msg : string) : exn := mkExn "RuntimeError" msg.
Definition AttributeError (msg : string) : exn := mkExn "AttributeError" msg.
Definition TypeError (msg : string) : exn := mkExn "TypeError" msg.
(** [str(KeyError(k))] is [repr(k)]. *)
Definition KeyError (key : string) : exn := mkExn "KeyError" ("'" +:+ key +:+ "'").

Inductive result (A : Type) : Type :=
| Ok (a : A)
| Raise (e : exn).
Arguments Ok {A} a.
Arguments Raise {A} e.

(** ** External objects and the arguments of external calls *)

(** Modelled from the spec: the configuration object [WAN_CONFIGS['i2v-14B']]
    of the [wan] package, which is not part of the repository; the handler
    reads its default negative prompt and its frame rate. *)
Record Config : Type := mkConfig {
  sample_neg_prompt : string;
  sample_fps : Z
}.

(** What [requests.get] / [requests.post] return: [raise_for_status] raises
    [status_error] when the status is an HTTP error. *)
Record Response : Type := mkResponse {
  status_error : option exn;
  content : string;
  text : string
}.

(** Keyword arguments of [wan.WanI2V(...)] (lines 80-89). *)
Record WanI2VArgs : Type := mkWanI2VArgs {
  config : Config;
  checkpoint_dir : string;
  device_id : Z;
  rank : Z;
  t5_fsdp : bool;
  dit_fsdp : bool;
  use_usp : bool;
  t5_cpu : bool
}.

(** Arguments of [requests.post] in [_upload] (lines 56-60). *)
Record PostArgs : Type := mkPostArgs {
  post_url : string;
  post_files : list (string * string);
  post_data : list (string * string);
  post_headers : list (string * string);
  post_timeout : Z
}.

Section Handler.

(** PIL images, video tensors and the loaded model are opaque. *)
Context {Image Video Model : Type}.

(** Arguments of [model.generate(...)] (lines 170-182). *)
Record GenerateArgs : Type := mkGenerateArgs {
  gen_prompt : pyval;
  gen_image : Image;
  max_area : Z;
  frame_num : Z;
  shift : float;
  sample_solver : string;
  sampling_steps : Z;
  guide_scale : float;
  n_prompt : pyval;
  gen_seed : pyval;
  offload_model : bool
}.

(** Arguments of [cache_video(...)] (lines 198-205). *)
Record CacheVideoArgs : Type := mkCacheVideoArgs {
  tensor : Video;
  save_file : string;
  fps : Z;
  nrow : Z;
  normalize : bool;
  value_range : Z * Z
}.

(** The values stored in [model_cache]. *)
Inductive obj : Type :=
| ObjModel (m : Model)
| ObjConfig (c : Config).

(** The trace of collaborator calls, in call order.  [CallDownloadImage],
    [CallLoadModel] and [CallUpload] mark the entry into the handler's own
    helper functions; the others are calls that leave the repository. *)
Inductive Call : Type :=
| CallDownloadImage (url : pyval) (timeout : Z)
| CallRequestsGet (url : pyval) (timeout : Z)
| CallTempFile (suffix : string) (data : string)
| CallImageOpen (path : string) (mode : string)
| CallUnlink (path : string)
| CallLoadModel
| CallPathExists (path : string)
| CallWanI2V (args : WanI2VArgs)
| CallGenerate (m : Model) (args : GenerateArgs)
| CallUuid4
| CallCacheVideo (args : CacheVideoArgs)
| CallUpload (path : string)
| CallOpen (path : string) (mode : string)
| CallRequestsPost (args : PostArgs).

(** The environment: one oracle per external call site, and the external
    tables and builtins the handler uses. *)
Record Env : Type := mkEnv {
  (* the [n]-th reading of [time.time()] *)
  time : nat -> float;
  (* download_image *)
  requests_get : pyval -> Z -> result Response;
  temp_file : string -> string -> result string;
  image_open : string -> string -> result Image;
  unlink_temp : string -> result unit;
  (* load_model *)
  environ : gmap string string;
  model_path_exists : string -> bool;
  WAN_CONFIGS : gmap string Config;
  WanI2V : WanI2VArgs -> result Model;
  (* the handler *)
  MAX_AREA_CONFIGS : gmap string Z;
  generate : Model -> GenerateArgs -> result Video;
  index_none : Video -> Video;
  uuid4_hex : string;
  cache_video : CacheVideoArgs -> result unit;
  output_exists : string -> bool;
  unlink_output : string -> result unit;
  (* _upload *)
  open_rb : string -> result unit;
  requests_post : PostArgs -> result Response;
  (* builtins: [str.strip], [round(x, 2)], [format(x, '.2f')], and [str] of
     a float, list or dict *)
  strip : string -> string;
  round2 : float -> float;
  format_2f : float -> string;
  str_other : pyval -> string
}.

(** The state of the process while a job runs. *)
Record State : Type := mkState {
  events : list pydict;
  calls : list Call;
  model_cache : gmap string obj;
  clock : nat
}.

(** ** The monad of generator bodies *)

Definition M (A : Type) : Type := State -> result A * State.

(** A computation that leaves the state alone. *)
Definition lift {A} (r : result A) : M A := fun st => (r, st).

Definition ret {A} (a : A) : M A := lift (Ok a).

Definition bind {A B} (m : M A) (k : A -> M B) : M B :=
  fun st =>
    match m st with
    | (Ok a, st') => k a st'
    | (Raise e, st') => (Raise e, st')
    end.

(** [raise e] *)
Definition raise {A} (e : exn) : M A := lift (Raise e).

(** [try: body except Exception as e: handler(e)] *)
Definition try_except {A} (body : M A) (handler : exn -> M A) : M A :=
  fun st =>
    match body st with
    | (Ok a, st') => (Ok a, st')
    | (Raise e, st') => handler e st'
    end.

(** [yield ev] *)
Definition yield (ev : pydict) : M unit :=
  fun st => (Ok tt, mkState (events st ++ [ev]) (calls st) (model_cache st) (clock st)).

(** The global [model_cache]. *)
Definition get_cache : M (gmap string obj) :=
  fun st => (Ok (model_cache st), st).

(** The state after the calls [cs]. *)
Definition with_calls (st : State) (cs : list Call) : State :=
  mkState (events st) (calls st ++ cs) (model_cache st) (clock st).

(** An external call: it is recorded, and its outcome is the oracle's. *)
Definition ext {A} (c : Call) (r : result A) : M A :=
  fun st => (r, with_calls st [c]).

(** [model_cache[k] = v] *)
Definition cache_set (k : string) (v : obj) : M unit :=
  fun st => (Ok tt, mkState (events st) (calls st) (<[k := v]> (model_cache st)) (clock st)).

Local Notation "'let!' x ':=' m 'in' k" := (bind m (fun x => k))
  (at level 10, x pattern, m at level 100, k at level 200).
Local Notation "m '>>' k" := (bind m (fun _ => k))
  (at level 100, k at level 200, right associativity).

Variable env : Env.

(** [time.time()] *)
Definition time_time : M float :=
  fun st => (Ok (time env (clock st)),
             mkState (events st) (calls st) (model_cache st) (S (clock st))).

(** [table[k]] on an external table. *)
Definition getitem {A} (table : gmap string A) (k : string) : result A :=
  match table !! k with
  | Some a => Ok a
  | None => Raise (KeyError k)
  end.

(** [o.get(k, default)] *)
Definition py_get (o : pyval) (k : string) (default : pyval) : result pyval :=
  match o with
  | PDict d => Ok (dict_get d k default)
  | _ => Raise (AttributeError ("'" +:+ type_name o +:+ "' object has no attribute 'get'"))
  end.

(** [v >= 0] *)
Definition py_ge_zero (v : pyval) : result bool :=
  match v with
  | PInt z => Ok (0 <=? z)
  | PBool _ => Ok true
  | PFloat f => Ok (PrimFloat.leb 0%float f)
  | _ => Raise (TypeError ("'>=' not supported between instances of '"
                           +:+ type_name v +:+ "' and 'int'"))
  end.

(** [str(v)], as an f-string formats a value. *)
Definition py_str (v : pyval) : string :=
  match v with
  | PStr s => s
  | PNone => "None"
  | PBool true => "True"
  | PBool false => "False"
  | PInt z => pretty z
  | _ => str_other env v
  end.

(** [type(o).__name__] of a cached object; the configuration is an
    attribute dictionary of the [wan] package. *)
Definition class_name (o : obj) : string :=
  match o with
  | ObjModel _ => "WanI2V"
  | ObjConfig _ => "EasyDict"
  end.

Definition no_attribute {A} (o : obj) (attr : string) : result A :=
  Raise (AttributeError ("'" +:+ class_name o +:+ "' object has no attribute '"
                         +:+ attr +:+ "'")).

(** [model.generate] *)
Definition attr_generate (o : obj) : result Model :=
  match o with
  | ObjModel m => Ok m
  | _ => no_attribute o "generate"
  end.

(** [cfg.sample_neg_prompt] and [cfg.sample_fps] *)
Definition attr_config {A} (o : obj) (attr : string) (field : Config -> A) : result A :=
  match o with
  | ObjConfig c => Ok (field c)
  | _ => no_attribute o attr
  end.

(** [response.raise_for_status()] *)
Definition raise_for_status (r : Response) : result unit :=
  match status_error r with
  | Some e => Raise e
  | None => Ok tt
  end.

(** ** [download_image] (lines 26-47) *)
Definition download_image (url : pyval) (timeout : Z) : M Image :=
  ext (CallDownloadImage url timeout) (Ok tt) >>
  try_except
    (let! response := ext (CallRequestsGet url timeout) (requests_get env url timeout) in
     lift (raise_for_status response) >>
     let! tmp_path := ext (CallTempFile ".jpg" (content response))
                          (temp_file env ".jpg" (content response)) in
     let! image := ext (CallImageOpen tmp_path "RGB") (image_open env tmp_path "RGB") in
     ext (CallUnlink tmp_path) (unlink_temp env tmp_path) >>
     ret image)
    (fun e =>
       raise (RuntimeError ("Failed to download image from " +:+ py_str url
                            +:+ ": " +:+ exn_msg e))).

(** ** [_upload] (lines 49-62) *)
Definition upload_headers : list (string * string) :=
  [("User-Agent", "Mozilla/5.0 (Linux; Android 10; K) AppleWebKit/537.36 (KHTML, like Gecko) Chrome/91.0.4472.120 Mobile Safari/537.36")].

Definition _upload (path : string) : M string :=
  ext (CallUpload path) (Ok tt) >>
  let headers := upload_headers in
  ext (CallOpen path "rb") (open_rb env path) >>
  let args := mkPostArgs "https://catbox.moe/user/api.php"
                         [("fileToUpload", path)]
                         [("reqtype", "fileupload")]
                         headers 60 in
  let! r := ext (CallRequestsPost args) (requests_post env args) in
  lift (raise_for_status r) >>
  ret (strip env (text r)).

(** ** [load_model] (lines 64-95) *)
Definition default_model_path : string :=
  "/workspace/Wan2.1/models/Wan2.1-I2V-14B-720P".

Definition load_model : M (obj * obj) :=
  ext CallLoadModel (Ok tt) >>
  let! cache := get_cache in
  (match cache !! "wan_i2v" with
   | None =>
       let model_path := default default_model_path (environ env !! "MODEL_PATH") in
       let! found := ext (CallPathExists model_path) (Ok (model_path_exists env model_path)) in
       if negb found then
         raise (RuntimeError ("Model path not found: " +:+ model_path))
       else
         let! cfg := lift (getitem (WAN_CONFIGS env) "i2v-14B") in
         let args := mkWanI2VArgs cfg model_path 0 0 false false false false in
         let! model := ext (CallWanI2V args) (WanI2V env args) in
         cache_set "wan_i2v" (ObjModel model) >>
         cache_set "config" (ObjConfig cfg)
   | Some _ => ret tt
   end) >>
  let! model := (let! c := get_cache in lift (getitem c "wan_i2v")) in
  let! cfg := (let! c := get_cache in lift (getitem c "config")) in
  ret (model, cfg).

(** ** Events *)

(** The failure event of the pre-flight checks (lines 109-113, 133-137). *)
Definition invalid_input_event (message : string) : pydict :=
  [("error", PStr message);
   ("error_code", PStr "INVALID_INPUT");
   ("status", PStr "failed")].

(** A progress event (lines 141-146, 151-156, 161-166, 185-190, 208-213). *)
Definition progress_event (status : string) (progress : Z) (message : string)
    (timestamp : float) : pydict :=
  [("status", PStr status);
   ("progress", PInt progress);
   ("message", PStr message);
   ("timestamp", PFloat timestamp)].

(** The final result (lines 224-233). *)
Definition success_event (video_url : string) (resolution seed : pyval)
    (processing_time : float) : pydict :=
  [("video_url", PStr video_url);
   ("duration", PFloat 5%float);
   ("resolution", resolution);
   ("seed", seed);
   ("processing_time", PFloat (round2 env processing_time));
   ("status", PStr "completed");
   ("message", PStr ("Video generation completed in "
                     +:+ format_2f env processing_time +:+ "s"));
   ("timestamp", PFloat processing_time)].

(** The failure event of the exception handler (lines 252-258). *)
Definition failure_event (error error_code : string)
    (processing_time timestamp : float) : pydict :=
  [("error", PStr error);
   ("error_code", PStr error_code);
   ("status", PStr "failed");
   ("processing_time", PFloat processing_time);
   ("timestamp", PFloat timestamp)].

(** "Determine error type" (lines 241-250), on [str(e)]. *)
Definition error_code_of (msg : string) : string :=
  if contains "download" (lower msg) then "DOWNLOAD_ERROR"
  else if contains "model" (lower msg) then "MODEL_ERROR"
  else if contains "memory" (lower msg) || contains "cuda" (lower msg) then "MEMORY_ERROR"
  else if contains "upload" (lower msg) then "UPLOAD_ERROR"
  else "GENERATION_ERROR".

(** [yield] of a progress event stamped with the elapsed time. *)
Definition yield_progress (start_time : float) (status : string) (progress : Z)
    (message : string) : M unit :=
  let! now := time_time in
  yield (progress_event status progress message (PrimFloat.sub now start_time)).

(** ** [async_generator_handler] (lines 97-258) *)

(** Steps 1-5 and the final result (lines 140-233): what follows the
    resolution mapping, with the variables it has in scope. *)
Definition generation_steps (start_time : float)
    (image_url prompt negative seed resolution : pyval)
    (max_area : Z) (shift : float) : M unit :=
  (* Step 1: Download input image *)
  yield_progress start_time "downloading" 10 "Downloading input image..." >>
  let! image := download_image image_url 30 in
  (* Step 2: Load model *)
  yield_progress start_time "loading" 20 "Loading model..." >>
  let! loaded := load_model in
  let '(model, cfg) := loaded in
  (* Step 3: Generate video *)
  yield_progress start_time "generating" 30 "Starting video generation..." >>
  let! the_model := lift (attr_generate model) in
  let! n_prompt :=
    (if truthy negative then ret negative
     else lift (attr_config cfg "sample_neg_prompt" (fun c => PStr (sample_neg_prompt c)))) in
  let! seed_arg :=
    (let! nonneg := lift (py_ge_zero seed) in ret (if nonneg then seed else PInt (-1))) in
  let args := mkGenerateArgs prompt image max_area 81 shift "unipc" 40 5%float
                             n_prompt seed_arg true in
  let! video := ext (CallGenerate the_model args) (generate env the_model args) in
  (* Step 4: Save video *)
  yield_progress start_time "saving" 80 "Saving video..." >>
  let! hex := ext CallUuid4 (Ok (uuid4_hex env)) in
  let output_filename := "wan21_i2v_" +:+ String.substring 0 8 hex +:+ ".mp4" in
  let output_path := "/tmp/" +:+ output_filename in
  let! the_fps := lift (attr_config cfg "sample_fps" sample_fps) in
  let enc := mkCacheVideoArgs (index_none env video) output_path the_fps 1 true (-1, 1) in
  ext (CallCacheVideo enc) (cache_video env enc) >>
  (* Step 5: Upload *)
  yield_progress start_time "uploading" 90 "Uploading video..." >>
  let! video_url := _upload output_path in
  (* Clean up temporary file *)
  let! still_there := ext (CallPathExists output_path) (Ok (output_exists env output_path)) in
  (if still_there then ext (CallUnlink output_path) (unlink_output env output_path)
   else ret tt) >>
  let! finished := time_time in
  let processing_time := PrimFloat.sub finished start_time in
  (* Final result *)
  yield (success_event video_url resolution seed processing_time).

(** The body of the [try] (lines 104-235). *)
Definition try_body (job_input : pyval) (start_time : float) : M unit :=
  (* Validate required inputs *)
  let! image_url := lift (py_get job_input "image_url" PNone) in
  let! prompt := lift (py_get job_input "prompt" PNone) in
  if negb (truthy image_url) || negb (truthy prompt) then
    yield (invalid_input_event "Missing required parameters: image_url and prompt")
  else
    (* Extract optional parameters with defaults *)
    let! negative := lift (py_get job_input "negative" (PStr "")) in
    let! seed := lift (py_get job_input "seed" (PInt (-1))) in
    let! resolution := lift (py_get job_input "resolution" (PStr "720p")) in
    (* Map resolution to parameters *)
    if py_eq_str resolution "720p" then
      let size_key := "1280*720" in
      let! max_area := lift (getitem (MAX_AREA_CONFIGS env) size_key) in
      generation_steps start_time image_url prompt negative seed resolution max_area 5%float
    else if py_eq_str resolution "480p" then
      let size_key := "832*480" in
      let! max_area := lift (getitem (MAX_AREA_CONFIGS env) size_key) in
      generation_steps start_time image_url prompt negative seed resolution max_area 3%float
    else
      yield (invalid_input_event ("Unsupported resolution: " +:+ py_str resolution
                                  +:+ ". Use '720p' or '480p'")).

(** The [except Exception as e] clause (lines 237-258). *)
Definition except_clause (start_time : float) (e : exn) : M unit :=
  let error_code := error_code_of (exn_msg e) in
  let! t1 := time_time in
  let! t2 := time_time in
  yield (failure_event (exn_msg e) error_code
                       (PrimFloat.sub t1 start_time) (PrimFloat.sub t2 start_time)).

(** [job.get("input", {})] *)
Definition job_input_of (job : pydict) : pyval := dict_get job "input" (PDict []).

Definition async_generator_handler (job : pydict) : M unit :=
  let job_input := job_input_of job in
  let job_id := dict_get job "id" (PStr "unknown") in
  let! start_time := time_time in
  try_except (try_body job_input start_time) (except_clause start_time).

End Handler.

Arguments GenerateArgs : clear implicits.
Arguments CacheVideoArgs : clear implicits.
Arguments obj : clear implicits.
Arguments Call : clear implicits.
Arguments Env : clear implicits.
Arguments State : clear implicits.
Arguments M : clear implicits.

(** ** Concrete environments and jobs, used to run the handler *)

Definition ok_response (body : string) : Response := mkResponse None "" body.

(** An environment over trivial objects: the clock ticks once per reading,
    the tables hold the two resolutions and the i2v configuration, and the
    outcomes of the download, the generation and the upload are given. *)
Definition demo_env (get : result Response) (gen : result unit)
    (post : result Response) : Env unit unit unit :=
  {| time := fun n => PrimFloat.of_uint63 (Uint63.of_Z (Z.of_nat n));
     requests_get := fun _ _ => get;
     temp_file := fun _ _ => Ok "/tmp/tmpa1b2c3.jpg";
     image_open := fun _ _ => Ok tt;
     unlink_temp := fun _ => Ok tt;
     environ := ∅;
     model_path_exists := fun _ => true;
     WAN_CONFIGS := {[ "i2v-14B" := mkConfig "blurry, low quality" 16 ]};
     WanI2V := fun _ => Ok tt;
     MAX_AREA_CONFIGS := {[ "1280*720" := 921600; "832*480" := 399360 ]};
     generate := fun _ _ => gen;
     index_none := fun v => v;
     uuid4_hex := "0123456789abcdef0123456789abcdef";
     cache_video := fun _ => Ok tt;
     output_exists := fun _ => true;
     unlink_output := fun _ => Ok tt;
     open_rb := fun _ => Ok tt;
     requests_post := fun _ => post;
     strip := fun s => s;
     round2 := fun x => x;
     format_2f := fun _ => "0.00";
     str_other := fun _ => "?" |}.

(** Every collaborator succeeds. *)
Definition happy_env : Env unit unit unit :=
  demo_env (Ok (ok_response "")) (Ok tt) (Ok (ok_response "https://files.catbox.moe/abc123.mp4")).

(** The model runs out of memory while generating. *)
Definition generate_fails_env : Env unit unit unit :=
  demo_env (Ok (ok_response "")) (Raise (mkExn "OutOfMemoryError" "CUDA out of memory"))
           (Ok (ok_response "")).


(** The file host answers with an error status. *)
Definition upload_fails_env : Env unit unit unit :=
  demo_env (Ok (ok_response "")) (Ok tt)
           (Ok (mkResponse (Some (mkExn "HTTPError" "Upload failed: 502 Bad Gateway")) "" "")).

(** The upload fails with a message that also speaks of memory. *)
Definition upload_oom_env : Env unit unit unit :=
  demo_env (Ok (ok_response "")) (Ok tt)
           (Raise (mkExn "ConnectionError" "Upload aborted: out of memory")).

(** The spec's end-to-end scenario. *)
Definition cat_job : pydict :=
  [("id", PStr "job-1");
   ("input", PDict [("image_url", PStr "http://x/img.jpg");
                    ("prompt", PStr "a cat");
                    ("resolution", PStr "480p")])].

(** [{"prompt": "x"}]: no [image_url]. *)
Definition no_image_job : pydict :=
  [("input", PDict [("prompt", PStr "x")])].

(** A prompt that is present and empty. *)
Definition empty_prompt_job : pydict :=
  [("input", PDict [("image_url", PStr "http://x/img.jpg"); ("prompt", PStr "")])].

(** ** Observations on events, inputs and traces *)

Definition status_of (ev : pydict) : option pyval := dict_lookup ev "status".

(** A terminal event is a success payload or a failure payload. *)
Definition is_terminal (ev : pydict) : bool :=
  match status_of ev with
  | Some (PStr s) => String.eqb s "completed" || String.eqb s "failed"
  | _ => false
  end.

(** The failure payload of the event table: [error] and [error_code] are
    strings, [status] is "failed", [processing_time] and [timestamp] are
    floats. *)
Definition has_failure_fields (ev : pydict) : Prop :=
  exists (error code : string) (pt ts : float),
    dict_lookup ev "error" = Some (PStr error)
    /\ dict_lookup ev "error_code" = Some (PStr code)
    /\ dict_lookup ev "status" = Some (PStr "failed")
    /\ dict_lookup ev "processing_time" = Some (PFloat pt)
    /\ dict_lookup ev "timestamp" = Some (PFloat ts).

Definition progress_of (ev : pydict) : option pyval := dict_lookup ev "progress".

(** The [progress] values of the events that carry one, in order. *)
Fixpoint progress_values (evs : list pydict) : list Z :=
  match evs with
  | [] => []
  | ev :: rest =>
      match progress_of ev with
      | Some (PInt p) => p :: progress_values rest
      | _ => progress_values rest
      end
  end.

(** The status of the last event yielded so far. *)
Definition last_status (evs : list pydict) : option pyval :=
  status_of (List.last evs []).

(** How many times a trace constructs the model. *)
Definition constructions {Image Video Model} (cs : list (Call Image Video Model)) : nat :=
  length (List.filter (fun c => match c with CallWanI2V _ => true | _ => false end) cs).

(** [sub] occurs in [s]. *)
Definition Substring (sub s : string) : Prop :=
  exists pre post, s = pre +:+ sub +:+ post.

(** The conditions under which lines 108 and 132 answer [INVALID_INPUT]. *)
Definition preflight_rejects (d : pydict) : bool :=
  negb (truthy (dict_get d "image_url" PNone))
  || negb (truthy (dict_get d "prompt" PNone))
  || negb (py_eq_str (dict_get d "resolution" (PStr "720p")) "720p"
           || py_eq_str (dict_get d "resolution" (PStr "720p")) "480p").

(** Is the model in the cache? (line 68) *)
Definition model_cached {Model} (cache : gmap string (obj Model)) : bool :=
  match cache !! "wan_i2v" with
  | Some _ => true
  | None => false
  end.

(** ** One job on a process *)

Section Run.
Context {Image Video Model : Type}.
Variable env : Env Image Video Model.

Local Abbreviation State := (State Image Video Model).
Local Abbreviation Call := (Call Image Video Model).

(** The handler run to exhaustion on a process whose [model_cache] is
    [cache] and whose clock has been read [t] times. *)
Definition run_job (cache : gmap string (obj Model)) (t : nat) (job : pydict)
  : result unit * State :=
  async_generator_handler env job (mkState [] [] cache t).

Definition job_outcome cache t job : result unit := fst (run_job cache t job).
Definition job_events cache t job : list pydict := events (snd (run_job cache t job)).
Definition job_calls cache t job : list Call := calls (snd (run_job cache t job)).
Definition job_cache cache t job : gmap string (obj Model) := model_cache (snd (run_job cache t job)).

(** The [try] block of the job (lines 103-235), entered once [start_time]
    has been read. *)
Definition body_run (cache : gmap string (obj Model)) (t : nat) (job : pydict)
  : result unit * State :=
  try_body env (job_input_of job) (time env t) (mkState [] [] cache (S t)).

(** The job is answered by the pre-flight validation: its only event is an
    [INVALID_INPUT] failure. *)
Definition rejected_by_validation cache t job : Prop :=
  exists msg, job_events cache t job = [invalid_input_event msg].

(** ** The shape of a run *)

(** What a job with seed [seed], started on a process whose cache state is
    [cached], may call: [generate] only with the seed of line 180, and the
    model constructor only when the model is not cached. *)
Definition call_ok (seed : pyval) (cached : bool) (c : Call) : Prop :=
  match c with
  | CallGenerate _ a =>
      exists nonneg, py_ge_zero seed = Ok nonneg
                     /\ gen_seed a = if nonneg then seed else PInt (-1)
  | CallWanI2V _ => cached = false
  | _ => True
  end.

(** Calls that neither generate nor construct. *)
Definition other_call (c : Call) : bool :=
  match c with
  | CallGenerate _ _ | CallWanI2V _ => false
  | _ => true
  end.

(** The five progress reports, in order (lines 141-213). *)
Definition progress_steps : list (string * Z * string) :=
  [("downloading", 10, "Downloading input image...");
   ("loading", 20, "Loading model...");
   ("generating", 30, "Starting video generation...");
   ("saving", 80, "Saving video...");
   ("uploading", 90, "Uploading video...")].

(** The events of [steps] when the clock has been read [t] times. *)
Fixpoint stamp (start : float) (t : nat) (steps : list (string * Z * string))
  : list pydict :=
  match steps with
  | [] => []
  | (status, progress, message) :: rest =>
      progress_event status progress message (PrimFloat.sub (time env t) start)
      :: stamp start (S t) rest
  end.

(** The first [k] progress events of a job. *)
Definition progress_events (start : float) (t : nat) (k : nat) : list pydict :=
  stamp start t (firstn k progress_steps).

(** What a run of [generation_steps] from [st] leaves behind: the calls
    made, the cache, and the events, which are a prefix of the progress
    reports when an exception [e] escapes and all five of them followed by
    the final result otherwise. *)
Definition steps_post (start : float) (image_url seed resolution : pyval)
    (st : State) (r : result unit) (st' : State) : Prop :=
  exists cs,
    calls st' = calls st ++ cs
    /\ Forall (call_ok seed (model_cached (model_cache st))) cs
    /\ (model_cached (model_cache st) = true -> model_cache st' = model_cache st)
    /\ match r with
       | Ok _ =>
           (exists url,
              events st' = events st ++ progress_events start (clock st) 5
                           ++ [success_event env url resolution seed
                                 (PrimFloat.sub (time env (5 + clock st)%nat) start)])
           /\ (exists m a, In (CallGenerate m a) cs)
       | Raise e =>
           exists k, (1 <= k <= 5)%nat
             /\ events st' = events st ++ progress_events start (clock st) k
             /\ (k = 1%nat ->
                 exn_class e = "RuntimeError"
                 /\ exists cause, exn_msg e = "Failed to download image from "
                                              +:+ py_str env image_url +:+ ": " +:+ cause)
       end.

(** The four ways a job can go. *)
Inductive JobRun (cache : gmap string (obj Model)) (t : nat) (job : pydict) : Prop :=
| Rejected (d : pydict) (msg : string)
    (Hinput : job_input_of job = PDict d)
    (Hrejects : preflight_rejects d = true)
    (Hbody : body_run cache t job
             = (Ok tt, mkState [invalid_input_event msg] [] cache (S t)))
| FailedEarly (e : exn)
    (Hvalid : forall d, job_input_of job = PDict d -> preflight_rejects d = false)
    (Hbody : body_run cache t job = (Raise e, mkState [] [] cache (S t)))
| FailedStep (d : pydict) (e : exn) (st1 : State)
    (Hinput : job_input_of job = PDict d)
    (Hrejects : preflight_rejects d = false)
    (Hbody : body_run cache t job = (Raise e, st1))
    (Hsteps : steps_post (time env t) (dict_get d "image_url" PNone)
                         (dict_get d "seed" (PInt (-1)))
                         (dict_get d "resolution" (PStr "720p"))
                         (mkState [] [] cache (S t)) (Raise e) st1)
| Succeeded (d : pydict) (st1 : State)
    (Hinput : job_input_of job = PDict d)
    (Hrejects : preflight_rejects d = false)
    (Hbody : body_run cache t job = (Ok tt, st1))
    (Hsteps : steps_post (time env t) (dict_get d "image_url" PNone)
                         (dict_get d "seed" (PInt (-1)))
                         (dict_get d "resolution" (PStr "720p"))
                         (mkState [] [] cache (S t)) (Ok tt) st1).

End Run.

Section Serve.
Context {Image Video Model : Type}.

Local Abbreviation Env := (Env Image Video Model).
Local Abbreviation State := (State Image Video Model).

(** A process that serves jobs one after the other, each in the environment
    it meets: [model_cache] and the clock live on from job to job.  The
    result lists the state each job leaves. *)
Fixpoint serve (cache : gmap string (obj Model)) (t : nat)
    (jobs : list (Env * pydict)) : list State :=
  match jobs with
  | [] => []
  | (env, job) :: rest =>
      let st := snd (run_job env cache t job) in
      st :: serve (model_cache st) (clock st) rest
  end.

End Serve.

(** ** Views of the helper functions *)

Section Views.
Context {Image Video Model : Type}.
Variable env : Env Image Video Model.

Local Abbreviation State := (State Image Video Model).
Local Abbreviation Call := (Call Image Video Model).

(** The exception of line 47, raised for the cause [e]. *)
Definition download_error (url : pyval) (e : exn) : exn :=
  RuntimeError ("Failed to download image from " +:+ py_str env url
                +:+ ": " +:+ exn_msg e).

(** The six runs of [download_image] (lines 26-47): which stage fails, the
    result and the calls made. *)
Inductive DownloadRun (url : pyval) (timeout : Z) (st : State)
  : result Image -> State -> Prop :=
| DownloadGetFails (e : exn)
    (Hget : requests_get env url timeout = Raise e) :
    DownloadRun url timeout st (Raise (download_error url e))
      (with_calls st [CallDownloadImage url timeout; CallRequestsGet url timeout])
| DownloadBadStatus (resp : Response) (e : exn)
    (Hget : requests_get env url timeout = Ok resp)
    (Hstatus : status_error resp = Some e) :
    DownloadRun url timeout st (Raise (download_error url e))
      (with_calls st [CallDownloadImage url timeout; CallRequestsGet url timeout])
| DownloadTempFails (resp : Response) (e : exn)
    (Hget : requests_get env url timeout = Ok resp)
    (Hstatus : status_error resp = None)
    (Htemp : temp_file env ".jpg" (content resp) = Raise e) :
    DownloadRun url timeout st (Raise (download_error url e))
      (with_calls st [CallDownloadImage url timeout; CallRequestsGet url timeout;
                      CallTempFile ".jpg" (content resp)])
| DownloadOpenFails (resp : Response) (tmp : string) (e : exn)
    (Hget : requests_get env url timeout = Ok resp)
    (Hstatus : status_error resp = None)
    (Htemp : temp_file env ".jpg" (content resp) = Ok tmp)
    (Hopen : image_open env tmp "RGB" = Raise e) :
    DownloadRun url timeout st (Raise (download_error url e))
      (with_calls st [CallDownloadImage url timeout; CallRequestsGet url timeout;
                      CallTempFile ".jpg" (content resp); CallImageOpen tmp "RGB"])
| DownloadUnlinkFails (resp : Response) (tmp : string) (img : Image) (e : exn)
    (Hget : requests_get env url timeout = Ok resp)
    (Hstatus : status_error resp = None)
    (Htemp : temp_file env ".jpg" (content resp) = Ok tmp)
    (Hopen : image_open env tmp "RGB" = Ok img)
    (Hunlink : unlink_temp env tmp = Raise e) :
    DownloadRun url timeout st (Raise (download_error url e))
      (with_calls st [CallDownloadImage url timeout; CallRequestsGet url timeout;
                      CallTempFile ".jpg" (content resp); CallImageOpen tmp "RGB";
                      CallUnlink tmp])
| DownloadOk (resp : Response) (tmp : string) (img : Image)
    (Hget : requests_get env url timeout = Ok resp)
    (Hstatus : status_error resp = None)
    (Htemp : temp_file env ".jpg" (content resp) = Ok tmp)
    (Hopen : image_open env tmp "RGB" = Ok img)
    (Hunlink : unlink_temp env tmp = Ok tt) :
    DownloadRun url timeout st (Ok img)
      (with_calls st [CallDownloadImage url timeout; CallRequestsGet url timeout;
                      CallTempFile ".jpg" (content resp); CallImageOpen tmp "RGB";
                      CallUnlink tmp]).

(** The request of lines 56-60 for the file at [path]. *)
Definition post_args (path : string) : PostArgs :=
  mkPostArgs "https://catbox.moe/user/api.php" [("fileToUpload", path)]
             [("reqtype", "fileupload")] upload_headers 60.

(** The four runs of [_upload] (lines 49-62). *)
Inductive UploadRun (path : string) (st : State) : result string -> State -> Prop :=
| UploadOpenFails (e : exn)
    (Hopen : open_rb env path = Raise e) :
    UploadRun path st (Raise e) (with_calls st [CallUpload path; CallOpen path "rb"])
| UploadPostFails (e : exn)
    (Hopen : open_rb env path = Ok tt)
    (Hpost : requests_post env (post_args path) = Raise e) :
    UploadRun path st (Raise e)
      (with_calls st [CallUpload path; CallOpen path "rb";
                      CallRequestsPost (post_args path)])
| UploadBadStatus (r : Response) (e : exn)
    (Hopen : open_rb env path = Ok tt)
    (Hpost : requests_post env (post_args path) = Ok r)
    (Hstatus : status_error r = Some e) :
    UploadRun path st (Raise e)
      (with_calls st [CallUpload path; CallOpen path "rb";
                      CallRequestsPost (post_args path)])
| UploadOk (r : Response)
    (Hopen : open_rb env path = Ok tt)
    (Hpost : requests_post env (post_args path) = Ok r)
    (Hstatus : status_error r = None) :
    UploadRun path st (Ok (strip env (text r)))
      (with_calls st [CallUpload path; CallOpen path "rb";
                      CallRequestsPost (post_args path)]).

(** [os.environ.get('MODEL_PATH', ...)] (line 72). *)
Definition model_path : string :=
  default default_model_path (environ env !! "MODEL_PATH").

(** The constructor call of lines 80-89 for the configuration [cfg]. *)
Definition wan_args (cfg : Config) : WanI2VArgs :=
  mkWanI2VArgs cfg model_path 0 0 false false false false.

(** The six runs of [load_model] (lines 64-95). *)
Inductive LoadRun (st : State) : result (obj Model * obj Model) -> State -> Prop :=
| LoadCached (model cfg : obj Model)
    (Hmodel : model_cache st !! "wan_i2v" = Some model)
    (Hconfig : model_cache st !! "config" = Some cfg) :
    LoadRun st (Ok (model, cfg)) (with_calls st [CallLoadModel])
| LoadCachedNoConfig (model : obj Model)
    (Hmodel : model_cache st !! "wan_i2v" = Some model)
    (Hconfig : model_cache st !! "config" = None) :
    LoadRun st (Raise (KeyError "config")) (with_calls st [CallLoadModel])
| LoadPathMissing
    (Hmodel : model_cache st !! "wan_i2v" = None)
    (Hpath : model_path_exists env model_path = false) :
    LoadRun st (Raise (RuntimeError ("Model path not found: " +:+ model_path)))
      (with_calls st [CallLoadModel; CallPathExists model_path])
| LoadNoConfig
    (Hmodel : model_cache st !! "wan_i2v" = None)
    (Hpath : model_path_exists env model_path = true)
    (Hcfg : WAN_CONFIGS env !! "i2v-14B" = None) :
    LoadRun st (Raise (KeyError "i2v-14B"))
      (with_calls st [CallLoadModel; CallPathExists model_path])
| LoadConstructFails (cfg : Config) (e : exn)
    (Hmodel : model_cache st !! "wan_i2v" = None)
    (Hpath : model_path_exists env model_path = true)
    (Hcfg : WAN_CONFIGS env !! "i2v-14B" = Some cfg)
    (Hnew : WanI2V env (wan_args cfg) = Raise e) :
    LoadRun st (Raise e)
      (with_calls st [CallLoadModel; CallPathExists model_path; CallWanI2V (wan_args cfg)])
| LoadConstructed (cfg : Config) (m : Model)
    (Hmodel : model_cache st !! "wan_i2v" = None)
    (Hpath : model_path_exists env model_path = true)
    (Hcfg : WAN_CONFIGS env !! "i2v-14B" = Some cfg)
    (Hnew : WanI2V env (wan_args cfg) = Ok m) :
    LoadRun st (Ok (ObjModel m, ObjConfig cfg))
      (mkState (events st)
               (calls st ++ [CallLoadModel; CallPathExists model_path;
                             CallWanI2V (wan_args cfg)])
               (<["config" := ObjConfig cfg]>
                  (<["wan_i2v" := ObjModel m]> (model_cache st)))
               (clock st)).


(** ** A view of the generation steps *)

(** The state after a progress report (lines 141-146 and the like): the
    clock is read once and the event is yielded. *)
Definition reported (start : float) (status : string) (progress : Z)
    (message : string) (st : State) : State :=
  mkState (events st ++ [progress_event status progress message
                           (PrimFloat.sub (time env (clock st)) start)])
          (calls st) (model_cache st) (S (clock st)).

(** The evaluation of [model.generate] and of its arguments (lines 170-182),
    in Python's order: the attribute, the negative prompt, the seed. *)
Definition generate_call (prompt : pyval) (image : Image) (area : Z) (shift : float)
    (negative seed : pyval) (model cfg : obj Model)
  : result (Model * GenerateArgs Image) :=
  match attr_generate model with
  | Raise e => Raise e
  | Ok the_model =>
      match (if truthy negative then Ok negative
             else attr_config cfg "sample_neg_prompt"
                              (fun c => PStr (sample_neg_prompt c))) with
      | Raise e => Raise e
      | Ok the_n_prompt =>
          match py_ge_zero seed with
          | Raise e => Raise e
          | Ok nonneg =>
              Ok (the_model,
                  mkGenerateArgs prompt image area 81 shift "unipc" 40 5%float
                                 the_n_prompt (if nonneg then seed else PInt (-1)) true)
          end
      end
  end.

(** [output_path] (lines 193-194). *)
Definition output_path : string :=
  "/tmp/" +:+ "wan21_i2v_" +:+ String.substring 0 8 (uuid4_hex env) +:+ ".mp4".

(** The arguments of [cache_video] (lines 198-205). *)
Definition encode_args (video : Video) (the_fps : Z) : CacheVideoArgs Video :=
  mkCacheVideoArgs (index_none env video) output_path the_fps 1 true (-1, 1).

Section Steps.
Variables (start : float) (image_url prompt negative seed resolution : pyval)
          (area : Z) (shift : float) (st : State).

Definition at_downloading : State :=
  reported start "downloading" 10 "Downloading input image..." st.
Definition at_loading (st1 : State) : State :=
  reported start "loading" 20 "Loading model..." st1.
Definition at_generating (st2 : State) : State :=
  reported start "generating" 30 "Starting video generation..." st2.
Definition at_saving (st2 : State) (m : Model) (a : GenerateArgs Image) : State :=
  reported start "saving" 80 "Saving video..."
           (with_calls (at_generating st2) [CallGenerate m a]).
Definition at_uploading (st2 : State) (m : Model) (a : GenerateArgs Image)
    (enc : CacheVideoArgs Video) : State :=
  reported start "uploading" 90 "Uploading video..."
           (with_calls (at_saving st2 m a) [CallUuid4; CallCacheVideo enc]).

(** The state in which the final result has been yielded, after the clean-up
    calls [cleanup]. *)
Definition at_completed (st5 : State) (cleanup : list Call) (video_url : string) : State :=
  mkState (events st5 ++ [success_event env video_url resolution seed
                            (PrimFloat.sub (time env (clock st5)) start)])
          (calls st5 ++ cleanup) (model_cache st5) (S (clock st5)).

(** The runs of [generation_steps] (lines 140-233): where the exception
    escapes, or the success, with the runs of the helpers on the way. *)
Inductive StepsRun : result unit -> State -> Prop :=
| StepsDownloadFails (e : exn) (st1 : State)
    (Hdownload : DownloadRun image_url 30 at_downloading (Raise e) st1) :
    StepsRun (Raise e) st1
| StepsLoadFails (image : Image) (st1 : State) (e : exn) (st2 : State)
    (Hdownload : DownloadRun image_url 30 at_downloading (Ok image) st1)
    (Hload : LoadRun (at_loading st1) (Raise e) st2) :
    StepsRun (Raise e) st2
| StepsArgumentsFail (image : Image) (st1 : State) (model cfg : obj Model)
    (st2 : State) (e : exn)
    (Hdownload : DownloadRun image_url 30 at_downloading (Ok image) st1)
    (Hload : LoadRun (at_loading st1) (Ok (model, cfg)) st2)
    (Hcall : generate_call prompt image area shift negative seed model cfg = Raise e) :
    StepsRun (Raise e) (at_generating st2)
| StepsGenerateFails (image : Image) (st1 : State) (model cfg : obj Model)
    (st2 : State) (m : Model) (a : GenerateArgs Image) (e : exn)
    (Hdownload : DownloadRun image_url 30 at_downloading (Ok image) st1)
    (Hload : LoadRun (at_loading st1) (Ok (model, cfg)) st2)
    (Hcall : generate_call prompt image area shift negative seed model cfg = Ok (m, a))
    (Hgenerate : generate env m a = Raise e) :
    StepsRun (Raise e) (with_calls (at_generating st2) [CallGenerate m a])
| StepsFpsFails (image : Image) (st1 : State) (model cfg : obj Model)
    (st2 : State) (m : Model) (a : GenerateArgs Image) (video : Video) (e : exn)
    (Hdownload : DownloadRun image_url 30 at_downloading (Ok image) st1)
    (Hload : LoadRun (at_loading st1) (Ok (model, cfg)) st2)
    (Hcall : generate_call prompt image area shift negative seed model cfg = Ok (m, a))
    (Hgenerate : generate env m a = Ok video)
    (Hfps : attr_config cfg "sample_fps" sample_fps = Raise e) :
    StepsRun (Raise e) (with_calls (at_saving st2 m a) [CallUuid4])
| StepsEncodeFails (image : Image) (st1 : State) (model cfg : obj Model)
    (st2 : State) (m : Model) (a : GenerateArgs Image) (video : Video)
    (the_fps : Z) (e : exn)
    (Hdownload : DownloadRun image_url 30 at_downloading (Ok image) st1)
    (Hload : LoadRun (at_loading st1) (Ok (model, cfg)) st2)
    (Hcall : generate_call prompt image area shift negative seed model cfg = Ok (m, a))
    (Hgenerate : generate env m a = Ok video)
    (Hfps : attr_config cfg "sample_fps" sample_fps = Ok the_fps)
    (Hencode : cache_video env (encode_args video the_fps) = Raise e) :
    StepsRun (Raise e)
      (with_calls (at_saving st2 m a)
                  [CallUuid4; CallCacheVideo (encode_args video the_fps)])
| StepsUploadFails (image : Image) (st1 : State) (model cfg : obj Model)
    (st2 : State) (m : Model) (a : GenerateArgs Image) (video : Video)
    (the_fps : Z) (e : exn) (st5 : State)
    (Hdownload : DownloadRun image_url 30 at_downloading (Ok image) st1)
    (Hload : LoadRun (at_loading st1) (Ok (model, cfg)) st2)
    (Hcall : generate_call prompt image area shift negative seed model cfg = Ok (m, a))
    (Hgenerate : generate env m a = Ok video)
    (Hfps : attr_config cfg "sample_fps" sample_fps = Ok the_fps)
    (Hencode : cache_video env (encode_args video the_fps) = Ok tt)
    (Hupload : UploadRun output_path
                 (at_uploading st2 m a (encode_args video the_fps)) (Raise e) st5) :
    StepsRun (Raise e) st5
| StepsCleanupFails (image : Image) (st1 : State) (model cfg : obj Model)
    (st2 : State) (m : Model) (a : GenerateArgs Image) (video : Video)
    (the_fps : Z) (video_url : string) (st5 : State) (e : exn)
    (Hdownload : DownloadRun image_url 30 at_downloading (Ok image) st1)
    (Hload : LoadRun (at_loading st1) (Ok (model, cfg)) st2)
    (Hcall : generate_call prompt image area shift negative seed model cfg = Ok (m, a))
    (Hgenerate : generate env m a = Ok video)
    (Hfps : attr_config cfg "sample_fps" sample_fps = Ok the_fps)
    (Hencode : cache_video env (encode_args video the_fps) = Ok tt)
    (Hupload : UploadRun output_path
                 (at_uploading st2 m a (encode_args video the_fps)) (Ok video_url) st5)
    (Hexists : output_exists env output_path = true)
    (Hunlink : unlink_output env output_path = Raise e) :
    StepsRun (Raise e)
      (with_calls st5 [CallPathExists output_path; CallUnlink output_path])
| StepsCompleted (image : Image) (st1 : State) (model cfg : obj Model)
    (st2 : State) (m : Model) (a : GenerateArgs Image) (video : Video)
    (the_fps : Z) (video_url : string) (st5 : State) (cleanup : list Call)
    (Hdownload : DownloadRun image_url 30 at_downloading (Ok image) st1)
    (Hload : LoadRun (at_loading st1) (Ok (model, cfg)) st2)
    (Hcall : generate_call prompt image area shift negative seed model cfg = Ok (m, a))
    (Hgenerate : generate env m a = Ok video)
    (Hfps : attr_config cfg "sample_fps" sample_fps = Ok the_fps)
    (Hencode : cache_video env (encode_args video the_fps) = Ok tt)
    (Hupload : UploadRun output_path
                 (at_uploading st2 m a (encode_args video the_fps)) (Ok video_url) st5)
    (Hcleanup : (output_exists env output_path = true
                 /\ unlink_output env output_path = Ok tt
                 /\ cleanup = [CallPathExists output_path; CallUnlink output_path])
                \/ (output_exists env output_path = false
                    /\ cleanup = [CallPathExists output_path])) :
    StepsRun (Ok tt) (at_completed st5 cleanup video_url).

End Steps.

End Views.

(** ** A view of the whole job *)

Section JobViews.
Context {Image Video Model : Type}.
Variable env : Env Image Video Model.

Local Abbreviation State := (State Image Video Model).
Local Abbreviation Call := (Call Image Video Model).

(** [size_key] and [shift] of lines 124-131, for a resolution that passed
    the test of line 124 or of line 128. *)
Definition size_key_of (resolution : pyval) : string :=
  if py_eq_str resolution "720p" then "1280*720" else "832*480".
Definition shift_of (resolution : pyval) : float :=
  if py_eq_str resolution "720p" then 5%float else 3%float.

(** The runs of the [try] block: it ends before step 1, with no call made
    and at most the [INVALID_INPUT] event yielded, or it runs the generation
    steps on the fields of the input [d]. *)
Inductive JobView (cache : gmap string (obj Model)) (t : nat) (job : pydict) : Prop :=
| JobNoSteps (r : result unit) (evs : list pydict)
    (Hbody : body_run env cache t job = (r, mkState evs [] cache (S t)))
    (Hevs : match r with
            | Ok _ => exists msg, evs = [invalid_input_event msg]
            | Raise _ => evs = []
            end)
| JobSteps (d : pydict) (area : Z) (r : result unit) (st' : State)
    (Hinput : job_input_of job = PDict d)
    (Hrejects : preflight_rejects d = false)
    (Harea : MAX_AREA_CONFIGS env !! size_key_of (dict_get d "resolution" (PStr "720p"))
             = Some area)
    (Hbody : body_run env cache t job = (r, st'))
    (Hsteps : StepsRun env (time env t)
                (dict_get d "image_url" PNone) (dict_get d "prompt" PNone)
                (dict_get d "negative" (PStr "")) (dict_get d "seed" (PInt (-1)))
                (dict_get d "resolution" (PStr "720p"))
                area (shift_of (dict_get d "resolution" (PStr "720p")))
                (mkState [] [] cache (S t)) r st').

End JobViews.

(** ** Observations on the call trace *)

Section Traces.
Context {Image Video Model : Type}.

Local Abbreviation Call := (Call Image Video Model).

(** The five collaborators of a job, numbered in the order of the steps:
    the HTTP GET, the model constructor, the generation, the encoder and the
    HTTP POST. *)
Definition stage (c : Call) : option nat :=
  match c with
  | CallRequestsGet _ _ => Some 1%nat
  | CallWanI2V _ => Some 2%nat
  | CallGenerate _ _ => Some 3%nat
  | CallCacheVideo _ => Some 4%nat
  | CallRequestsPost _ => Some 5%nat
  | _ => None
  end.

(** The collaborators a trace calls, in order. *)
Fixpoint stages (cs : list Call) : list nat :=
  match cs with
  | [] => []
  | c :: rest =>
      match stage c with
      | Some n => n :: stages rest
      | None => stages rest
      end
  end.

(** The status a job reports before it enters the helper or collaborator
    that [c] records. *)
Definition reported_as (c : Call) : option string :=
  match c with
  | CallDownloadImage _ _ => Some "downloading"
  | CallLoadModel => Some "loading"
  | CallGenerate _ _ => Some "generating"
  | CallCacheVideo _ => Some "saving"
  | CallUpload _ => Some "uploading"
  | _ => None
  end.

(** The calls made after [_upload] has been entered. *)
Fixpoint after_upload (cs : list Call) : list Call :=
  match cs with
  | [] => []
  | CallUpload _ :: rest => rest
  | _ :: rest => after_upload rest
  end.

(** The process as a script finds it: nothing yielded, nothing called,
    nothing cached, the clock unread. *)
Definition fresh_state : State Image Video Model := mkState [] [] ∅ 0.

End Traces.

(** The statuses of the events, in order. *)
Definition statuses (evs : list pydict) : list (option pyval) := map status_of evs.

(** The shape [load_model] gives to [model_cache]: a cached model is a model
    object and comes with its configuration object. *)
Definition cache_well_formed {Model} (cache : gmap string (obj Model)) : Prop :=
  match cache !! "wan_i2v" with
  | None => True
  | Some o =>
      (exists m, o = ObjModel m) /\ exists cfg, cache !! "config" = Some (ObjConfig cfg)
  end.

(** ** The command line (lines 260-282) *)

(** The two functions of the [json] module the script uses: [json.loads],
    which raises [JSONDecodeError] on a malformed text, and
    [json.dumps(item, indent=...)]. *)
Record Json : Type := mkJson {
  loads : string -> result pyval;
  dumps : pyval -> Z -> string
}.

(** [sys.argv.index(x)]: the position of the first occurrence. *)
Fixpoint index_of (x : string) (argv : list string) : option nat :=
  match argv with
  | [] => None
  | y :: rest => if String.eqb y x then Some 0%nat else option_map S (index_of x rest)
  end.

(** [except json.JSONDecodeError] *)
Definition is_decode_error (e : exn) : bool :=
  String.eqb (exn_class e) "JSONDecodeError".

Section CommandLine.
Context {Image Video Model : Type}.
Variable env : Env Image Video Model.
Variable json : Json.

Local Abbreviation State := (State Image Video Model).

(** How the script ends: normally, with what it has printed; with the
    traceback of an uncaught exception; or in [runpod.serverless.start],
    called with the handler and [return_aggregate_stream]. *)
Inductive Outcome : Type :=
| Exited (stdout : list string) (st : State)
| Crashed (stdout : list string) (e : exn) (st : State)
| Serving (return_aggregate_stream : bool).

(** The handler on what [json.loads] returned: [job.get] (line 99) is
    evaluated before the [try] block is entered. *)
Definition handler_on (job : pyval) : M Image Video Model unit :=
  match job with
  | PDict d => async_generator_handler env d
  | _ => bind (lift (py_get job "input" (PDict []))) (fun _ => ret tt)
  end.

(** [run_test] (lines 260-263): every item the handler yields is printed. *)
Definition run_test (job : pyval) (st : State) : result unit * list string * State :=
  let (r, st') := handler_on job st in
  (r, map (fun item => dumps json (PDict item) 2) (events st'), st').

(** The script (lines 265-282) on [sys.argv]. *)
Definition main (argv : list string) : Outcome :=
  match index_of "--test_input" argv with
  | Some test_input_index =>
      match nth_error argv (test_input_index + 1) with
      | Some test_input_json =>
          match loads json test_input_json with
          | Ok job =>
              match run_test job fresh_state with
              | (Ok _, stdout, st) => Exited stdout st
              | (Raise e, stdout, st) =>
                  if is_decode_error e
                  then Exited (stdout ++ ["Error: Invalid JSON in test_input"]) st
                  else Crashed stdout e st
              end
          | Raise e =>
              if is_decode_error e
              then Exited ["Error: Invalid JSON in test_input"] fresh_state
              else Crashed [] e fresh_state
          end
      | None => Exited ["Error: --test_input requires a JSON string argument"] fresh_state
      end
  | None => Serving true
  end.

End CommandLine.

Arguments Outcome : clear implicits.

(** ** More environments and jobs *)

(** [happy_env] with other outcomes of the decoder and of the test of the
    model directory, and with other contents of the process environment and
    of the table of areas. *)
Definition lab_env (decoded : result unit) (variables : gmap string string)
    (found : bool) (areas : gmap string Z) : Env unit unit unit :=
  {| time := time happy_env;
     requests_get := requests_get happy_env;
     temp_file := temp_file happy_env;
     image_open := fun _ _ => decoded;
     unlink_temp := unlink_temp happy_env;
     environ := variables;
     model_path_exists := fun _ => found;
     WAN_CONFIGS := WAN_CONFIGS happy_env;
     WanI2V := WanI2V happy_env;
     MAX_AREA_CONFIGS := areas;
     generate := generate happy_env;
     index_none := index_none happy_env;
     uuid4_hex := uuid4_hex happy_env;
     cache_video := cache_video happy_env;
     output_exists := output_exists happy_env;
     unlink_output := unlink_output happy_env;
     open_rb := open_rb happy_env;
     requests_post := requests_post happy_env;
     strip := strip happy_env;
     round2 := round2 happy_env;
     format_2f := format_2f happy_env;
     str_other := str_other happy_env |}.


(** [MODEL_PATH] names a directory that does not exist. *)
Definition no_checkpoint_env : Env unit unit unit :=
  lab_env (Ok tt) {[ "MODEL_PATH" := "/mnt/Downloads/Wan2.1-I2V" ]} false
          (MAX_AREA_CONFIGS happy_env).

(** The table of areas has lost its entries. *)
Definition no_areas_env : Env unit unit unit := lab_env (Ok tt) ∅ true ∅.

(** The cache a successful job of [happy_env] leaves. *)
Definition warm_cache : gmap string (obj unit) :=
  <["config" := ObjConfig (mkConfig "blurry, low quality" 16)]>
    (<["wan_i2v" := ObjModel tt]> ∅).

(** What [cat_job] makes the handler pass to the model constructor, to
    [generate] and to [cache_video] in [happy_env]. *)
Definition cat_model_args : WanI2VArgs :=
  mkWanI2VArgs (mkConfig "blurry, low quality" 16) default_model_path
               0 0 false false false false.
Definition cat_generate_args : GenerateArgs unit :=
  mkGenerateArgs (PStr "a cat") tt 399360 81 3%float "unipc" 40 5%float
                 (PStr "blurry, low quality") (PInt (-1)) true.
Definition cat_encode_args : CacheVideoArgs unit :=
  mkCacheVideoArgs tt "/tmp/wan21_i2v_01234567.mp4" 16 1 true (-1, 1).

(** A seed given as text. *)
Definition text_seed_job : pydict :=
  [("input", PDict [("image_url", PStr "http://x/img.jpg");
                    ("prompt", PStr "a cat");
                    ("seed", PStr "42")])].

(** An input that is not a mapping. *)
Definition text_input_job : pydict := [("input", PStr "a cat")].

(** A [json] module that knows three texts. *)
Definition demo_json : Json :=
  {| loads := fun s =>
       if String.eqb s "{}" then Ok (PDict [])
       else if String.eqb s "[1]" then Ok (PList [PInt 1])
       else Raise (mkExn "JSONDecodeError" "Expecting value: line 1 column 1 (char 0)");
     dumps := fun v _ =>
       match v with
       | PDict d => "{" +:+ py_str happy_env (dict_get d "status" PNone) +:+ "}"
       | _ => py_str happy_env v
       end |}.

(** * Properties *)

(** ** Substrings *)


Lemma lower_app (a b : string) : lower (a +:+ b) = lower a +:+ lower b.
Proof.
  induction a as [|c a IH]; simpl; [reflexivity|].
  now rewrite IH.
Qed.

Lemma starts_with_spec (p s : string) :
  starts_with p s = true <-> exists post, s = p +:+ post.
Proof.
  revert s. induction p as [|a p IH]; intros s; simpl.
  - split; [intros _; now exists s | reflexivity].
  - destruct s as [|b s].
    + split; [discriminate | intros [post H]; discriminate].
    + rewrite andb_true_iff, IH. split.
      * intros [Hab [post ->]]. apply Ascii.eqb_eq in Hab. subst. now exists post.
      * intros [post H]. injection H as -> ->. split; [apply Ascii.eqb_refl | now exists post].
Qed.

Lemma contains_spec (sub s : string) :
  contains sub s = true <-> Substring sub s.
Proof.
  unfold Substring. induction s as [|c s IH].
  - simpl. rewrite orb_false_r, starts_with_spec. split.
    + intros [post H]. now exists "", post.
    + intros (pre & post & H). destruct pre; simpl in H; [now exists post | discriminate].
  - cbn [contains]. rewrite orb_true_iff, starts_with_spec, IH. split.
    + intros [[post H] | (pre & post & H)].
      * now exists "", post.
      * exists (String c pre), post. simpl. now rewrite H.
    + intros (pre & post & H). destruct pre as [|c' pre]; simpl in H.
      * left. now exists post.
      * right. injection H as _ H. now exists pre, post.
Qed.

Lemma contains_false_spec (sub s : string) :
  contains sub s = false <-> ~ Substring sub s.
Proof.
  rewrite <- contains_spec. destruct (contains sub s); split; congruence.
Qed.


(** ** Runs of the helper functions *)

Section Facts.
Context {Image Video Model : Type}.
Variable env : Env Image Video Model.

Local Abbreviation State := (State Image Video Model).
Local Abbreviation Call := (Call Image Video Model).

Lemma other_call_ok seed cached (cs : list Call) :
  forallb other_call cs = true -> Forall (call_ok seed cached) cs.
Proof.
  rewrite forallb_forall, Forall_forall. intros H c Hc.
  apply list_elem_of_In, H in Hc. destruct c; simpl in *; try discriminate; exact I.
Qed.

Lemma with_calls_app (st : State) (a b : list Call) :
  with_calls (with_calls st a) b = with_calls st (a ++ b).
Proof. unfold with_calls. simpl. now rewrite app_assoc. Qed.

Ltac run_monad :=
  cbv [bind ret raise lift try_except ext yield get_cache cache_set time_time
       yield_progress].

(** The exit of [download_image] through its [except] clause. *)
Ltac wrapped :=
  eexists _, _; rewrite ?with_calls_app;
  split; [reflexivity|]; split; [reflexivity|];
  intros ? [= <-]; eauto.

(** [download_image] only records calls, and whatever goes wrong inside it
    leaves it as the [RuntimeError] of line 47. *)
Lemma download_image_run (url : pyval) (timeout : Z) (st : State) :
  exists cs r,
    download_image env url timeout st = (r, with_calls st cs)
    /\ forallb other_call cs = true
    /\ (forall e, r = Raise e ->
          exn_class e = "RuntimeError"
          /\ exists cause, exn_msg e = "Failed to download image from "
                                       +:+ py_str env url +:+ ": " +:+ cause).
Proof.
  unfold download_image. run_monad.
  destruct (requests_get env url timeout) as [resp|e1]; [|wrapped].
  destruct (raise_for_status resp) as [[]|e2]; [|wrapped].
  destruct (temp_file env ".jpg" (content resp)) as [tmp|e3]; [|wrapped].
  destruct (image_open env tmp "RGB") as [img|e4]; [|wrapped].
  destruct (unlink_temp env tmp) as [[]|e5]; [|wrapped].
  eexists _, _. rewrite !with_calls_app.
  split; [reflexivity|]. split; [reflexivity|]. discriminate.
Qed.

Lemma _upload_run (path : string) (st : State) :
  exists cs r, _upload env path st = (r, with_calls st cs)
               /\ forallb other_call cs = true.
Proof.
  unfold _upload. run_monad.
  destruct (open_rb env path) as [[]|e1].
  2: { eexists _, _. rewrite !with_calls_app. split; eauto. }
  destruct (requests_post env _) as [resp|e2].
  2: { eexists _, _. rewrite !with_calls_app. split; eauto. }
  destruct (raise_for_status resp) as [[]|e3];
    eexists _, _; rewrite !with_calls_app; split; eauto.
Qed.

(** A run of [load_model] only records calls and writes the cache: it
    constructs the model only when none is cached, and a cache that holds
    the model is left as it is. *)
Lemma load_model_run (st : State) :
  exists cs r cache',
    load_model env st
    = (r, mkState (events st) (calls st ++ cs) cache' (clock st))
    /\ (forall seed, Forall (call_ok seed (model_cached (model_cache st))) cs)
    /\ (model_cached (model_cache st) = true -> cache' = model_cache st).
Proof.
  unfold load_model, model_cached. run_monad. unfold with_calls.
  cbn [events calls model_cache clock].
  destruct (model_cache st !! "wan_i2v") as [m|] eqn:Hm;
    cbn [events calls model_cache clock].
  - assert (Hok : forall seed, Forall (call_ok seed true) ([CallLoadModel] : list Call))
      by (intros; repeat constructor).
    destruct (getitem (model_cache st) "wan_i2v");
      [destruct (getitem (model_cache st) "config")|];
      eexists _, _, _; (split; [reflexivity|split; [exact Hok|reflexivity]]).
  - destruct (model_path_exists env _); cbn [negb].
    2: { eexists _, _, _. split; [rewrite <- !app_assoc; reflexivity|].
         split; [|discriminate]. intros. repeat constructor. }
    destruct (getitem (WAN_CONFIGS env) "i2v-14B") as [cfg|e1].
    2: { eexists _, _, _. split; [rewrite <- !app_assoc; reflexivity|].
         split; [|discriminate]. intros. repeat constructor. }
    destruct (WanI2V env _) as [mdl|e2]; cbn [events calls model_cache clock].
    2: { eexists _, _, _. split; [rewrite <- !app_assoc; reflexivity|].
         split; [|discriminate]. intros. repeat constructor. }
    rewrite <- !app_assoc.
    destruct (getitem _ "wan_i2v"); [destruct (getitem _ "config")|];
      eexists _, _, _; (split; [reflexivity|split; [|discriminate]]);
      intros; repeat constructor.
Qed.

(** ** Runs of the generation steps *)

Ltac simpl_state := unfold with_calls; cbn [events calls model_cache clock].

Ltac solve_calls :=
  repeat first [ apply Forall_app; split | apply Forall_cons; split | apply Forall_nil ];
  try solve [ exact I | apply other_call_ok; assumption | auto ].

(** An exception escapes after [k] progress reports. *)
Ltac exit_steps k :=
  simpl_state;
  eexists; split; [ rewrite <- ?app_assoc; reflexivity | ];
  split; [ solve_calls | ];
  split; [ auto | ];
  exists k; split; [ lia | ]; split; [ rewrite <- ?app_assoc; reflexivity | ];
  try (intros Hk; discriminate Hk).

(** The final result has been yielded. *)
Ltac exit_success :=
  simpl_state;
  eexists; split; [ rewrite <- ?app_assoc; reflexivity | ];
  split; [ solve_calls | ];
  split; [ auto | ];
  split; [ eexists; rewrite <- ?app_assoc; reflexivity | ];
  eexists _, _; do 2 (apply in_or_app; right); left; reflexivity.

(** The run from the seed comparison of line 180 to the final result. *)
Ltac run_from_seed seed st :=
  let nonneg := fresh "nonneg" in
  let Hseed := fresh "Hseed" in
  let Hgen := fresh "Hgen" in
  destruct (py_ge_zero seed) as [nonneg|?] eqn:Hseed; [ | exit_steps 3%nat ];
  simpl_state;
  assert (Hgen : forall m a, gen_seed a = (if nonneg then seed else PInt (-1)) ->
                             call_ok seed (model_cached (model_cache st)) (CallGenerate m a : Call))
    by (intros m a Ha; exists nonneg; split; [exact Hseed | exact Ha]);
  destruct (generate env _ _) as [?|?]; [ | exit_steps 3%nat ];
  (* Step 4 *)
  destruct (attr_config _ "sample_fps" sample_fps) as [?|?]; [ | exit_steps 4%nat ];
  destruct (cache_video env _) as [[]|?]; [ | exit_steps 4%nat ];
  (* Step 5 *)
  match goal with |- context [_upload env ?p ?s] =>
    let cs3 := fresh "cs" in
    let r3 := fresh "r" in
    let Hcs3 := fresh "Hcs" in
    destruct (_upload_run p s) as (cs3 & r3 & -> & Hcs3);
    destruct r3 as [?|?]; [ | exit_steps 5%nat ]
  end;
  simpl_state;
  destruct (output_exists env _); simpl_state;
  [ destruct (unlink_output env _) as [[]|?]; [ | exit_steps 5%nat ] | ];
  exit_success.

Lemma generation_steps_run start image_url prompt negative seed resolution
    max_area shift (st : State) :
  match generation_steps env start image_url prompt negative seed resolution
                         max_area shift st with
  | (r, st') => steps_post env start image_url seed resolution st r st'
  end.
Proof.
  unfold generation_steps. run_monad. simpl_state.
  (* Step 1 *)
  match goal with |- context [download_image env ?u ?t ?s] =>
    destruct (download_image_run u t s) as (cs1 & r1 & -> & Hcs1 & He1) end.
  destruct r1 as [image|e].
  2: { exit_steps 1%nat. intros _. exact (He1 e eq_refl). }
  simpl_state.
  (* Step 2 *)
  match goal with |- context [load_model env ?s] =>
    destruct (load_model_run s) as (cs2 & r2 & cache2 & -> & Hcs2 & Hcache2) end.
  cbn [model_cache] in Hcs2, Hcache2.
  destruct r2 as [[model cfg]|e].
  2: { exit_steps 2%nat. }
  simpl_state.
  (* Step 3 *)
  destruct (attr_generate model) as [the_model|e].
  2: { exit_steps 3%nat. }
  destruct (truthy negative); simpl_state.
  - run_from_seed seed st.
  - destruct (attr_config cfg "sample_neg_prompt" _) as [the_n_prompt|e].
    2: { exit_steps 3%nat. }
    run_from_seed seed st.
Qed.

(** ** Runs of a job *)

Lemma except_clause_run (start : float) (e : exn) (st : State) :
  except_clause env start e st
  = (Ok tt,
     mkState (events st
              ++ [failure_event (exn_msg e) (error_code_of (exn_msg e))
                    (PrimFloat.sub (time env (clock st)) start)
                    (PrimFloat.sub (time env (S (clock st))) start)])
             (calls st) (model_cache st) (S (S (clock st)))).
Proof. reflexivity. Qed.

(** The handler is the [try] block, with the [except] clause run on the
    exception that escapes it. *)
Lemma run_job_body cache t job :
  run_job env cache t job
  = match body_run env cache t job with
    | (Ok a, st') => (Ok a, st')
    | (Raise e, st') => except_clause env (time env t) e st'
    end.
Proof. reflexivity. Qed.

Lemma try_body_run (job_input : pyval) (start : float) (st : State) :
  match try_body env job_input start st with
  | (r, st') =>
      match job_input with
      | PDict d =>
          if preflight_rejects d then
            r = Ok tt
            /\ exists msg,
                st' = mkState (events st ++ [invalid_input_event msg]) (calls st)
                              (model_cache st) (clock st)
          else
            (exists e, r = Raise e /\ st' = st)
            \/ steps_post env start (dict_get d "image_url" PNone)
                          (dict_get d "seed" (PInt (-1)))
                          (dict_get d "resolution" (PStr "720p")) st r st'
      | _ => exists e, r = Raise e /\ st' = st
      end
  end.
Proof.
  unfold try_body, preflight_rejects.
  destruct job_input as [| | | | | |d]; try (run_monad; cbn [py_get]; eauto).
  run_monad. cbn [py_get].
  destruct (negb (truthy (dict_get d "image_url" PNone))
            || negb (truthy (dict_get d "prompt" PNone))); cbn [orb].
  { split; eauto. }
  destruct (py_eq_str (dict_get d "resolution" (PStr "720p")) "720p"); cbn [orb negb].
  { destruct (getitem (MAX_AREA_CONFIGS env) "1280*720") as [area|e]; [|left; eauto].
    match goal with |- context [generation_steps env ?a ?b ?c ?d ?e ?f ?g ?h ?s] =>
      pose proof (generation_steps_run a b c d e f g h s) as H;
      destruct (generation_steps env a b c d e f g h s)
    end.
    now right. }
  destruct (py_eq_str (dict_get d "resolution" (PStr "720p")) "480p"); cbn [negb].
  { destruct (getitem (MAX_AREA_CONFIGS env) "832*480") as [area|e]; [|left; eauto].
    match goal with |- context [generation_steps env ?a ?b ?c ?d ?e ?f ?g ?h ?s] =>
      pose proof (generation_steps_run a b c d e f g h s) as H;
      destruct (generation_steps env a b c d e f g h s)
    end.
    now right. }
  split; eauto.
Qed.

Lemma job_run cache t job : JobRun env cache t job.
Proof.
  pose proof (try_body_run (job_input_of job) (time env t) (mkState [] [] cache (S t))) as H.
  fold (body_run env cache t job) in H.
  destruct (body_run env cache t job) as [r st1] eqn:Hbody.
  destruct (job_input_of job) as [| | | | | |d] eqn:Hinput;
    try (destruct H as (e & -> & ->); apply (FailedEarly env cache t job e);
         [intros d' Hd; rewrite Hinput in Hd; discriminate | exact Hbody]).
  destruct (preflight_rejects d) eqn:Hrej.
  - destruct H as (-> & msg & ->). now apply (Rejected env cache t job d msg).
  - destruct H as [(e & -> & ->) | H].
    + apply (FailedEarly env cache t job e); [|exact Hbody].
      intros d' Hd. rewrite Hinput in Hd. now injection Hd as <-.
    + destruct r as [[]|e].
      * now apply (Succeeded env cache t job d st1).
      * now apply (FailedStep env cache t job d e st1).
Qed.

Lemma progress_events_cases (start : float) (t k : nat) :
  exists j, (j <= 5)%nat /\ progress_events env start t k = progress_events env start t j
            /\ (k <= 5 -> j = k)%nat.
Proof.
  do 5 (destruct k as [|k]; [eexists; split; [|split; [reflexivity|]]; lia|]).
  exists 5%nat. split; [lia|]. split; [destruct k; reflexivity|lia].
Qed.

Lemma progress_events_not_terminal (start : float) (t k : nat) :
  Forall (fun ev => is_terminal ev = false) (progress_events env start t k).
Proof.
  destruct (progress_events_cases start t k) as (j & Hj & -> & _).
  do 5 (destruct j as [|j]; [repeat constructor|]).
  destruct j; [repeat constructor | lia].
Qed.

(** ** C1: one terminal event, and no exception *)


(** ** C2: the fields of a failure event *)

Lemma failed_is_terminal (ev : pydict) :
  status_of ev = Some (PStr "failed") -> is_terminal ev = true.
Proof. unfold is_terminal. now intros ->. Qed.

Lemma progress_events_not_failed (start : float) (t k : nat) (ev : pydict) :
  In ev (progress_events env start t k) -> status_of ev <> Some (PStr "failed").
Proof.
  intros Hin Hst. apply failed_is_terminal in Hst.
  pose proof (progress_events_not_terminal start t k) as H.
  rewrite Forall_forall in H. apply list_elem_of_In, H in Hin. congruence.
Qed.

Lemma error_code_of_cases (msg : string) :
  In (error_code_of msg)
     ["DOWNLOAD_ERROR"; "MODEL_ERROR"; "MEMORY_ERROR"; "UPLOAD_ERROR"; "GENERATION_ERROR"].
Proof.
  unfold error_code_of.
  destruct (contains "download" _); [simpl; tauto|].
  destruct (contains "model" _); [simpl; tauto|].
  destruct (contains "memory" _ || contains "cuda" _); [simpl; tauto|].
  destruct (contains "upload" _); simpl; tauto.
Qed.

Lemma error_code_of_not_invalid (msg : string) :
  error_code_of msg <> "INVALID_INPUT".
Proof.
  pose proof (error_code_of_cases msg) as H. simpl in H.
  intros E. rewrite E in H.
  repeat (destruct H as [H|H]; [discriminate H|]). exact H.
Qed.

Lemma failure_event_has_fields (msg code : string) (pt ts : float) :
  has_failure_fields (failure_event msg code pt ts).
Proof. exists msg, code, pt, ts. repeat split. Qed.

(** C2, amended.  A failure event is either the event of the [except]
    clause, which carries [error], [error_code], [status = "failed"],
    [processing_time] and [timestamp], or a pre-flight [INVALID_INPUT] event,
    which carries [error], [error_code] and [status] only. *)
Theorem failed_events_shape cache t job ev :
  In ev (job_events env cache t job) ->
  status_of ev = Some (PStr "failed") ->
  ((exists msg, ev = invalid_input_event msg)
   /\ dict_lookup ev "error_code" = Some (PStr "INVALID_INPUT")
   /\ dict_lookup ev "processing_time" = None
   /\ dict_lookup ev "timestamp" = None
   /\ exists d, job_input_of job = PDict d /\ preflight_rejects d = true)
  \/ ((exists e st1, body_run env cache t job = (Raise e, st1))
      /\ has_failure_fields ev
      /\ dict_lookup ev "error_code" <> Some (PStr "INVALID_INPUT")).
Proof.
  unfold job_events. rewrite run_job_body.
  destruct (job_run cache t job) as [d msg Hin Hrej Hbody | e _ Hbody
                                    | d e st1 _ _ Hbody Hsteps | d st1 _ _ Hbody Hsteps];
    rewrite Hbody; try rewrite except_clause_run; cbn [fst snd events].
  - intros [<-|[]] _. left. repeat split; eauto.
  - intros [<-|[]] _. right. split; [eauto|]. split; [apply failure_event_has_fields|].
    cbn. intros [= E]. now apply error_code_of_not_invalid in E.
  - destruct Hsteps as (cs & _ & _ & _ & k & _ & Hev & _). cbn [events app] in Hev.
    rewrite Hev. intros Hin Hst. apply in_app_or in Hin as [Hin|[<-|[]]].
    + now apply progress_events_not_failed in Hin.
    + right. split; [eauto|]. split; [apply failure_event_has_fields|].
      cbn. intros [= E]. now apply error_code_of_not_invalid in E.
  - destruct Hsteps as (cs & _ & _ & _ & (url & Hev) & _). cbn [events app] in Hev.
    rewrite Hev. intros Hin Hst. apply in_app_or in Hin as [Hin|[<-|[]]].
    + now apply progress_events_not_failed in Hin.
    + discriminate Hst.
Qed.

(** ** C3: invalid input is answered before anything is called *)

Lemma py_eq_str_true (v : pyval) (s : string) :
  py_eq_str v s = true <-> v = PStr s.
Proof.
  destruct v; simpl; try (split; [discriminate | intros [=]]).
  rewrite String.eqb_eq. split; [now intros -> | now intros [= ->]].
Qed.

Lemma py_eq_str_false (v : pyval) (s : string) :
  py_eq_str v s = false <-> v <> PStr s.
Proof.
  rewrite <- py_eq_str_true. destruct (py_eq_str v s); split; congruence.
Qed.

Lemma preflight_rejects_true (d : pydict) :
  preflight_rejects d = true
  <-> truthy (dict_get d "image_url" PNone) = false
      \/ truthy (dict_get d "prompt" PNone) = false
      \/ (dict_get d "resolution" (PStr "720p") <> PStr "720p"
          /\ dict_get d "resolution" (PStr "720p") <> PStr "480p").
Proof.
  unfold preflight_rejects.
  rewrite !orb_true_iff, !negb_true_iff, orb_false_iff, !py_eq_str_false. tauto.
Qed.

(** A job whose input is rejected yields the one [INVALID_INPUT] event and
    touches nothing else. *)
Lemma rejected_job_run cache t job d :
  job_input_of job = PDict d ->
  preflight_rejects d = true ->
  exists msg,
    run_job env cache t job
    = (Ok tt, mkState [invalid_input_event msg] [] cache (S t)).
Proof.
  intros Hin Hrej. rewrite run_job_body.
  destruct (job_run cache t job) as [d' msg _ _ Hbody | e Hvalid _
                                    | d' e st1 Hin' Hrej' _ _ | d' st1 Hin' Hrej' _ _].
  - exists msg. now rewrite Hbody.
  - apply Hvalid in Hin. congruence.
  - congruence.
  - congruence.
Qed.

(** C3.  A job whose input lacks [image_url] or [prompt], or whose
    [resolution] is present and neither "720p" nor "480p", yields exactly one
    event, a failure with [error_code = "INVALID_INPUT"]; no progress event
    precedes it, no collaborator is called, the cache is untouched and the
    handler returns normally. *)
Theorem invalid_input_rejected_before_any_call cache t job d :
  job_input_of job = PDict d ->
  (dict_lookup d "image_url" = None
   \/ dict_lookup d "prompt" = None
   \/ exists r, dict_lookup d "resolution" = Some r
                /\ r <> PStr "720p" /\ r <> PStr "480p") ->
  (exists ev,
     job_events env cache t job = [ev]
     /\ dict_lookup ev "error_code" = Some (PStr "INVALID_INPUT")
     /\ status_of ev = Some (PStr "failed")
     /\ is_terminal ev = true)
  /\ job_calls env cache t job = []
  /\ job_cache env cache t job = cache
  /\ job_outcome env cache t job = Ok tt.
Proof.
  intros Hin Hbad.
  assert (Hrej : preflight_rejects d = true).
  { apply preflight_rejects_true. unfold dict_get.
    destruct Hbad as [-> | [-> | (r & -> & H1 & H2)]]; auto. }
  destruct (rejected_job_run cache t job d Hin Hrej) as [msg Hrun].
  unfold job_events, job_calls, job_cache, job_outcome. rewrite Hrun.
  cbn [fst snd events calls model_cache].
  split; [|auto]. exists (invalid_input_event msg). auto.
Qed.

(** ** C4: what the pre-flight validation checks *)

Lemma accepted_job_events cache t job d :
  job_input_of job = PDict d ->
  preflight_rejects d = false ->
  ~ rejected_by_validation env cache t job.
Proof.
  intros Hin Hacc [msg Hev]. revert Hev.
  unfold job_events. rewrite run_job_body.
  destruct (job_run cache t job) as [d' msg' Hin' Hrej' _ | e _ Hbody
                                    | d' e st1 _ _ Hbody Hsteps | d' st1 _ _ Hbody Hsteps].
  - congruence.
  - rewrite Hbody, except_clause_run. discriminate.
  - rewrite Hbody, except_clause_run. cbn [snd events].
    destruct Hsteps as (cs & _ & _ & _ & k & Hk & Hev & _). cbn [events app] in Hev.
    rewrite Hev. do 2 (destruct k as [|k]; [lia + discriminate|]).
    destruct k; discriminate.
  - rewrite Hbody. cbn [snd].
    destruct Hsteps as (cs & _ & _ & _ & (url & Hev) & _). cbn [events app] in Hev.
    rewrite Hev. discriminate.
Qed.

(** C4, amended.  The pre-flight validation rejects a job exactly when
    [image_url] is falsy, [prompt] is falsy (absent, null, empty, zero or
    false) or [resolution] is neither "720p" nor "480p"; nothing else of the
    input is looked at.  In particular a prompt that is present and empty is
    rejected. *)
Theorem validation_checks_truthiness cache t job d :
  job_input_of job = PDict d ->
  (rejected_by_validation env cache t job
   <-> truthy (dict_get d "image_url" PNone) = false
       \/ truthy (dict_get d "prompt" PNone) = false
       \/ (dict_get d "resolution" (PStr "720p") <> PStr "720p"
           /\ dict_get d "resolution" (PStr "720p") <> PStr "480p"))
  /\ (dict_lookup d "prompt" = Some (PStr "") -> rejected_by_validation env cache t job).
Proof.
  intros Hin.
  assert (Hiff : rejected_by_validation env cache t job <-> preflight_rejects d = true).
  { split.
    - intros Hrej. destruct (preflight_rejects d) eqn:E; [reflexivity|].
      now destruct (accepted_job_events cache t job d Hin E).
    - intros Hrej. destruct (rejected_job_run cache t job d Hin Hrej) as [msg Hrun].
      exists msg. unfold job_events. now rewrite Hrun. }
  split.
  - rewrite Hiff. apply preflight_rejects_true.
  - intros Hprompt. apply Hiff, preflight_rejects_true.
    right. left. unfold dict_get. now rewrite Hprompt.
Qed.

(** ** C5: the events of a successful job *)

(** C5.  When a job yields the success event, the statuses of its events
    are downloading, loading, generating, saving, uploading, completed, in
    that order, and the progress values of the five progress events are
    10, 20, 30, 80, 90, which never decrease. *)
Theorem successful_job_status_sequence cache t job ev :
  In ev (job_events env cache t job) ->
  status_of ev = Some (PStr "completed") ->
  map status_of (job_events env cache t job)
  = [Some (PStr "downloading"); Some (PStr "loading"); Some (PStr "generating");
     Some (PStr "saving"); Some (PStr "uploading"); Some (PStr "completed")]
  /\ map progress_of (job_events env cache t job)
     = [Some (PInt 10); Some (PInt 20); Some (PInt 30); Some (PInt 80); Some (PInt 90); None]
  /\ progress_values (job_events env cache t job) = [10; 20; 30; 80; 90]
  /\ StronglySorted Z.le (progress_values (job_events env cache t job)).
Proof.
  unfold job_events. rewrite run_job_body.
  destruct (job_run cache t job) as [d msg _ _ Hbody | e _ Hbody
                                    | d e st1 _ _ Hbody Hsteps | d st1 _ _ Hbody Hsteps];
    rewrite Hbody; try rewrite except_clause_run; cbn [fst snd events].
  - intros [<-|[]] H. discriminate H.
  - intros [<-|[]] H. discriminate H.
  - destruct Hsteps as (cs & _ & _ & _ & k & _ & Hev & _). cbn [events app] in Hev.
    rewrite Hev. intros Hin Hst. exfalso.
    apply in_app_or in Hin as [Hin|[<-|[]]]; [|discriminate Hst].
    pose proof (progress_events_not_terminal (time env t) (S t) k) as H.
    rewrite Forall_forall in H. apply list_elem_of_In, H in Hin.
    unfold is_terminal in Hin. now rewrite Hst in Hin.
  - destruct Hsteps as (cs & _ & _ & _ & (url & Hev) & _). cbn [events app] in Hev.
    rewrite Hev. intros _ _.
    split; [reflexivity|]. split; [reflexivity|]. split; [reflexivity|].
    cbn. repeat constructor; lia.
Qed.

(** ** C6: the classification of exceptions *)

Lemma error_code_of_spec (msg : string) :
  let m := lower msg in
  (Substring "download" m -> error_code_of msg = "DOWNLOAD_ERROR")
  /\ (~ Substring "download" m -> Substring "model" m ->
      error_code_of msg = "MODEL_ERROR")
  /\ (~ Substring "download" m -> ~ Substring "model" m ->
      Substring "memory" m \/ Substring "cuda" m ->
      error_code_of msg = "MEMORY_ERROR")
  /\ (~ Substring "download" m -> ~ Substring "model" m ->
      ~ Substring "memory" m -> ~ Substring "cuda" m -> Substring "upload" m ->
      error_code_of msg = "UPLOAD_ERROR")
  /\ (~ Substring "download" m -> ~ Substring "model" m ->
      ~ Substring "memory" m -> ~ Substring "cuda" m -> ~ Substring "upload" m ->
      error_code_of msg = "GENERATION_ERROR").
Proof.
  intros m. unfold error_code_of. fold m.
  rewrite <- !contains_spec.
  destruct (contains "download" m), (contains "model" m), (contains "memory" m),
    (contains "cuda" m), (contains "upload" m); cbn [orb];
    repeat split; intros; try reflexivity; try congruence;
    repeat match goal with H : _ \/ _ |- _ => destruct H end; congruence.
Qed.

(** The run of a job whose [try] block lets an exception escape. *)
Lemma failed_job_events cache t job e st1 :
  body_run env cache t job = (Raise e, st1) ->
  exists pt ts,
    job_events env cache t job
    = events st1 ++ [failure_event (exn_msg e) (error_code_of (exn_msg e)) pt ts].
Proof.
  intros Hbody. unfold job_events. rewrite run_job_body, Hbody, except_clause_run.
  eauto.
Qed.

(** C6.  When an exception [e] escapes the [try] block, the handler yields
    one more event: the failure whose [error] is [str(e)] verbatim and whose
    [error_code] is chosen by the substring tests on the lowercase message,
    in the order download, model, memory or cuda, upload, and
    GENERATION_ERROR when none occurs. *)
Theorem exception_classified_by_priority cache t job e st1 :
  body_run env cache t job = (Raise e, st1) ->
  exists final code,
    job_events env cache t job = events st1 ++ [final]
    /\ dict_lookup final "error" = Some (PStr (exn_msg e))
    /\ dict_lookup final "error_code" = Some (PStr code)
    /\ status_of final = Some (PStr "failed")
    /\ let m := lower (exn_msg e) in
       (Substring "download" m -> code = "DOWNLOAD_ERROR")
       /\ (~ Substring "download" m -> Substring "model" m -> code = "MODEL_ERROR")
       /\ (~ Substring "download" m -> ~ Substring "model" m ->
           Substring "memory" m \/ Substring "cuda" m -> code = "MEMORY_ERROR")
       /\ (~ Substring "download" m -> ~ Substring "model" m ->
           ~ Substring "memory" m -> ~ Substring "cuda" m -> Substring "upload" m ->
           code = "UPLOAD_ERROR")
       /\ (~ Substring "download" m -> ~ Substring "model" m ->
           ~ Substring "memory" m -> ~ Substring "cuda" m -> ~ Substring "upload" m ->
           code = "GENERATION_ERROR").
Proof.
  intros Hbody. destruct (failed_job_events cache t job e st1 Hbody) as (pt & ts & Hev).
  eexists _, (error_code_of (exn_msg e)). split; [exact Hev|].
  repeat (split; [reflexivity|]). apply error_code_of_spec.
Qed.

(** ** C7: failures of the upload step *)

(** The events a [try] block has yielded when an exception escapes it are
    the first [k] progress reports; an exception that escapes after the
    first report is the [RuntimeError] of [download_image]. *)
Lemma failed_body_events cache t job e st1 :
  body_run env cache t job = (Raise e, st1) ->
  exists k, (k <= 5)%nat
    /\ events st1 = progress_events env (time env t) (S t) k
    /\ (k = 1%nat ->
        exists d cause,
          job_input_of job = PDict d
          /\ exn_class e = "RuntimeError"
          /\ exn_msg e = "Failed to download image from "
                         +:+ py_str env (dict_get d "image_url" PNone) +:+ ": " +:+ cause).
Proof.
  intros Hbody.
  destruct (job_run cache t job) as [d msg _ _ Hbody' | e' _ Hbody'
                                    | d e' st1' Hin _ Hbody' Hsteps | d st1' _ _ Hbody' _];
    rewrite Hbody' in Hbody; try discriminate Hbody.
  - injection Hbody as <- <-. exists 0%nat. split; [lia|]. split; [reflexivity|discriminate].
  - injection Hbody as <- <-.
    destruct Hsteps as (cs & _ & _ & _ & k & Hk & Hev & Hdl). cbn [events app] in Hev.
    exists k. split; [lia|]. split; [exact Hev|].
    intros Hk1. destruct (Hdl Hk1) as (Hc & cause & Hmsg). eauto.
Qed.

Lemma last_status_progress_events (start : float) (t k : nat) :
  (k <= 5)%nat ->
  last_status (progress_events env start t k)
  = nth k [None; Some (PStr "downloading"); Some (PStr "loading");
           Some (PStr "generating"); Some (PStr "saving"); Some (PStr "uploading")] None.
Proof.
  intros Hk. do 5 (destruct k as [|k]; [reflexivity|]).
  destruct k; [reflexivity|lia].
Qed.

(** C7, amended.  When an exception escapes after the "uploading" report and
    its lowercase message contains "upload" and none of "download", "model",
    "memory" and "cuda", the five progress events are followed by the failure
    event, and its [error_code] is "UPLOAD_ERROR". *)
Theorem upload_error_without_earlier_keyword cache t job e st1 :
  body_run env cache t job = (Raise e, st1) ->
  last_status (events st1) = Some (PStr "uploading") ->
  Substring "upload" (lower (exn_msg e)) ->
  ~ Substring "download" (lower (exn_msg e)) ->
  ~ Substring "model" (lower (exn_msg e)) ->
  ~ Substring "memory" (lower (exn_msg e)) ->
  ~ Substring "cuda" (lower (exn_msg e)) ->
  exists final,
    job_events env cache t job = events st1 ++ [final]
    /\ dict_lookup final "error_code" = Some (PStr "UPLOAD_ERROR")
    /\ dict_lookup final "error" = Some (PStr (exn_msg e))
    /\ map status_of (job_events env cache t job)
       = [Some (PStr "downloading"); Some (PStr "loading"); Some (PStr "generating");
          Some (PStr "saving"); Some (PStr "uploading"); Some (PStr "failed")].
Proof.
  intros Hbody Hlast Hup Hd Hm Hmem Hcuda.
  destruct (failed_job_events cache t job e st1 Hbody) as (pt & ts & Hev).
  eexists. split; [exact Hev|].
  destruct (error_code_of_spec (exn_msg e)) as (_ & _ & _ & H & _).
  split; [cbn; now rewrite H|]. split; [reflexivity|].
  rewrite Hev.
  destruct (failed_body_events cache t job e st1 Hbody) as (k & Hk & Hevs & _).
  rewrite Hevs in Hlast |- *. rewrite last_status_progress_events in Hlast by exact Hk.
  do 5 (destruct k as [|k]; [discriminate Hlast|]).
  destruct k; [reflexivity|lia].
Qed.

(** ** C8: the seed *)

(** The calls of a job obey [call_ok], and a cached model survives it. *)
Lemma job_calls_ok cache t job d :
  job_input_of job = PDict d ->
  Forall (call_ok (dict_get d "seed" (PInt (-1))) (model_cached cache))
         (job_calls env cache t job).
Proof.
  intros Hin. unfold job_calls. rewrite run_job_body.
  destruct (job_run cache t job) as [d' msg _ _ Hbody | e _ Hbody
                                    | d' e st1 Hin' _ Hbody Hsteps | d' st1 Hin' _ Hbody Hsteps];
    rewrite Hbody; try rewrite except_clause_run; cbn [fst snd calls];
    try constructor;
    rewrite Hin in Hin'; injection Hin' as <-;
    destruct Hsteps as (cs & -> & Hcs & _); exact Hcs.
Qed.

(** C8.  The success event echoes the job's [seed] (-1 when the input has
    none) as it is, and its [duration] is 5.0; the seed that [generate] is
    called with is the job's seed when [seed >= 0] holds and -1 otherwise. *)
Theorem seed_echoed_and_passed cache t job d :
  job_input_of job = PDict d ->
  (forall ev, In ev (job_events env cache t job) ->
              status_of ev = Some (PStr "completed") ->
              dict_lookup ev "seed" = Some (dict_get d "seed" (PInt (-1)))
              /\ dict_lookup ev "duration" = Some (PFloat 5%float)
              /\ exists m a, In (CallGenerate m a) (job_calls env cache t job))
  /\ (forall m a, In (CallGenerate m a) (job_calls env cache t job) ->
        (exists nonneg,
            py_ge_zero (dict_get d "seed" (PInt (-1))) = Ok nonneg
            /\ gen_seed a = if nonneg then dict_get d "seed" (PInt (-1)) else PInt (-1))
        /\ (forall z, dict_get d "seed" (PInt (-1)) = PInt z ->
                      gen_seed a = PInt (if 0 <=? z then z else -1)))
  /\ (dict_lookup d "seed" = None -> dict_get d "seed" (PInt (-1)) = PInt (-1)).
Proof.
  intros Hin. split; [|split].
  - unfold job_events, job_calls. rewrite run_job_body.
    destruct (job_run cache t job) as [d' msg _ _ Hbody | e _ Hbody
                                      | d' e st1 _ _ Hbody Hsteps | d' st1 Hin' _ Hbody Hsteps];
      rewrite Hbody; try rewrite except_clause_run; cbn [fst snd events calls].
    + intros ev [<-|[]] H. discriminate H.
    + intros ev [<-|[]] H. discriminate H.
    + destruct Hsteps as (cs & _ & _ & _ & k & _ & Hev & _). cbn [events app] in Hev.
      rewrite Hev. intros ev Hev' Hst. exfalso.
      apply in_app_or in Hev' as [Hev'|[<-|[]]]; [|discriminate Hst].
      pose proof (progress_events_not_terminal (time env t) (S t) k) as H.
      rewrite Forall_forall in H. apply list_elem_of_In, H in Hev'.
      unfold is_terminal in Hev'. now rewrite Hst in Hev'.
    + rewrite Hin in Hin'. injection Hin' as <-.
      destruct Hsteps as (cs & Hcalls & _ & _ & (url & Hev) & Hgen).
      cbn [events calls app] in Hev, Hcalls. rewrite Hev, Hcalls.
      intros ev Hev' Hst. apply in_app_or in Hev' as [Hev'|[<-|[]]].
      * exfalso.
        pose proof (progress_events_not_terminal (time env t) (S t) 5) as H.
        rewrite Forall_forall in H. apply list_elem_of_In, H in Hev'.
        unfold is_terminal in Hev'. now rewrite Hst in Hev'.
      * repeat split; try reflexivity. exact Hgen.
  - intros m a Hcall.
    pose proof (job_calls_ok cache t job d Hin) as Hok.
    rewrite Forall_forall in Hok. apply list_elem_of_In, Hok in Hcall.
    destruct Hcall as (nonneg & Hge & Hseed). split; [eauto|].
    intros z Hz. rewrite Hz in Hge, Hseed. cbn in Hge. injection Hge as <-.
    rewrite Hseed. now destruct (0 <=? z).
  - unfold dict_get. now intros ->.
Qed.

(** ** C10: failures of the download step *)


(** ** Runs of [load_model] and of jobs on a loaded model *)




End Facts.

(** ** C9: the model is loaded once *)

Section Process.
Context {Image Video Model : Type}.

Local Abbreviation Env := (Env Image Video Model).
Local Abbreviation State := (State Image Video Model).


End Process.

(** * The helpers, the data flow of a job, and the script *)

(** ** Every run of the helpers and of the generation steps *)

Section Flow.
Context {Image Video Model : Type}.
Variable env : Env Image Video Model.

Local Abbreviation State := (State Image Video Model).
Local Abbreviation Call := (Call Image Video Model).

Ltac unfold_monad :=
  cbv [bind ret raise lift try_except ext yield get_cache cache_set time_time
       yield_progress].

Ltac reduce_state := cbn [events calls model_cache clock].

Lemma download_image_view (url : pyval) (timeout : Z) (st : State) r st' :
  download_image env url timeout st = (r, st') ->
  DownloadRun env url timeout st r st'.
Proof.
  unfold download_image. unfold_monad.
  destruct (requests_get env url timeout) as [resp|e] eqn:Hget.
  2: { intros [= <- <-]. rewrite with_calls_app. now apply DownloadGetFails. }
  unfold raise_for_status.
  destruct (status_error resp) as [e|] eqn:Hstatus.
  { intros [= <- <-]. rewrite with_calls_app.
    now apply DownloadBadStatus with (resp := resp). }
  destruct (temp_file env ".jpg" (content resp)) as [tmp|e] eqn:Htemp.
  2: { intros [= <- <-]. rewrite !with_calls_app. now apply DownloadTempFails. }
  destruct (image_open env tmp "RGB") as [img|e] eqn:Hopen.
  2: { intros [= <- <-]. rewrite !with_calls_app. now apply DownloadOpenFails. }
  destruct (unlink_temp env tmp) as [[]|e] eqn:Hunlink;
    intros [= <- <-]; rewrite !with_calls_app.
  - now apply DownloadOk with (resp := resp).
  - now apply DownloadUnlinkFails with (resp := resp) (img := img).
Qed.

Lemma _upload_view (path : string) (st : State) r st' :
  _upload env path st = (r, st') -> UploadRun env path st r st'.
Proof.
  unfold _upload. unfold_monad. fold (post_args path).
  destruct (open_rb env path) as [[]|e] eqn:Hopen.
  2: { intros [= <- <-]. rewrite with_calls_app. now apply UploadOpenFails. }
  destruct (requests_post env (post_args path)) as [resp|e] eqn:Hpost.
  2: { intros [= <- <-]. rewrite !with_calls_app. now apply UploadPostFails. }
  unfold raise_for_status.
  destruct (status_error resp) as [e|] eqn:Hstatus;
    intros [= <- <-]; rewrite !with_calls_app.
  - now apply UploadBadStatus with (r := resp).
  - now apply UploadOk.
Qed.

Lemma load_model_view (st : State) r st' :
  load_model env st = (r, st') -> LoadRun env st r st'.
Proof.
  unfold load_model. unfold_monad. unfold with_calls, getitem. reduce_state.
  fold (model_path env).
  destruct (model_cache st !! "wan_i2v") as [model|] eqn:Hmodel; reduce_state.
  - rewrite Hmodel.
    destruct (model_cache st !! "config") as [cfg|] eqn:Hconfig; intros [= <- <-].
    + now apply LoadCached.
    + now apply LoadCachedNoConfig with (model := model).
  - destruct (model_path_exists env (model_path env)) eqn:Hpath; cbn [negb].
    2: { intros [= <- <-]. rewrite <- app_assoc. now apply LoadPathMissing. }
    destruct (WAN_CONFIGS env !! "i2v-14B") as [cfg|] eqn:Hcfg.
    2: { intros [= <- <-]. rewrite <- app_assoc. now apply LoadNoConfig. }
    fold (wan_args env cfg).
    destruct (WanI2V env (wan_args env cfg)) as [m|e] eqn:Hnew; reduce_state.
    2: { intros [= <- <-]. rewrite <- !app_assoc. now apply LoadConstructFails. }
    rewrite lookup_insert_ne by discriminate.
    rewrite !lookup_insert_eq. intros [= <- <-]. rewrite <- !app_assoc.
    now apply LoadConstructed.
Qed.

Lemma StepsRun_state start image_url prompt negative seed resolution area shift
    (st : State) r (s s' : State) :
  StepsRun env start image_url prompt negative seed resolution area shift st r s ->
  s = s' ->
  StepsRun env start image_url prompt negative seed resolution area shift st r s'.
Proof. now intros H <-. Qed.

(** Equality of two states that differ in the bracketing of their traces. *)
Ltac state_eq :=
  unfold at_completed, at_uploading, at_saving, at_generating, at_loading,
         at_downloading, reported, with_calls;
  reduce_state; rewrite <- ?app_assoc; reflexivity.

(** From the call of [generate] to the final result. *)
Ltac view_from_generate start cfg st2 Hdl Hld Hcall :=
  let video := fresh "video" in
  let e := fresh "e" in
  let Hgen := fresh "Hgen" in
  let Hfps := fresh "Hfps" in
  let Henc := fresh "Henc" in
  let Hup := fresh "Hup" in
  let Hex := fresh "Hex" in
  let Hun := fresh "Hun" in
  lazymatch type of Hcall with
  | _ = Ok (?m, ?a) =>
      destruct (generate env m a) as [video|e] eqn:Hgen;
      [ | intros [= <- <-];
          eapply StepsRun_state;
          [ eapply StepsGenerateFails;
            [exact Hdl | exact Hld | exact Hcall | exact Hgen]
          | state_eq ] ];
      let the_fps := fresh "the_fps" in
      destruct (attr_config cfg "sample_fps" sample_fps) as [the_fps|e] eqn:Hfps;
      [ | intros [= <- <-];
          eapply StepsRun_state;
          [ eapply StepsFpsFails;
            [exact Hdl | exact Hld | exact Hcall | exact Hgen | exact Hfps]
          | state_eq ] ];
      fold (output_path env); fold (encode_args env video the_fps);
      destruct (cache_video env (encode_args env video the_fps)) as [[]|e] eqn:Henc;
      [ | intros [= <- <-];
          eapply StepsRun_state;
          [ eapply StepsEncodeFails;
            [exact Hdl | exact Hld | exact Hcall | exact Hgen | exact Hfps | exact Henc]
          | state_eq ] ];
      match goal with |- context [_upload env _ ?s] =>
        replace s with (at_uploading env start st2 m a (encode_args env video the_fps))
          by state_eq end;
      let video_url := fresh "video_url" in
      let st5 := fresh "st5" in
      destruct (_upload env (output_path env)
                  (at_uploading env start st2 m a (encode_args env video the_fps)))
        as [[video_url|e] st5] eqn:Hup; apply _upload_view in Hup;
      [ | intros [= <- <-];
          eapply StepsUploadFails;
          [exact Hdl | exact Hld | exact Hcall | exact Hgen | exact Hfps | exact Henc
          | exact Hup] ];
      reduce_state;
      destruct (output_exists env (output_path env)) eqn:Hex;
      [ destruct (unlink_output env (output_path env)) as [[]|e] eqn:Hun;
        [ | intros [= <- <-];
            eapply StepsRun_state;
            [ eapply StepsCleanupFails;
              [exact Hdl | exact Hld | exact Hcall | exact Hgen | exact Hfps | exact Henc
              | exact Hup | exact Hex | exact Hun]
            | state_eq ] ]
      | ];
      intros [= <- <-];
      [ eapply StepsRun_state;
        [ eapply (StepsCompleted) with
            (cleanup := [CallPathExists (output_path env); CallUnlink (output_path env)]);
          [exact Hdl | exact Hld | exact Hcall | exact Hgen | exact Hfps | exact Henc
          | exact Hup | left; repeat split; assumption]
        | state_eq ]
      | eapply StepsRun_state;
        [ eapply (StepsCompleted) with (cleanup := [CallPathExists (output_path env)]);
          [exact Hdl | exact Hld | exact Hcall | exact Hgen | exact Hfps | exact Henc
          | exact Hup | right; repeat split; assumption]
        | state_eq ] ]
  end.

Lemma generation_steps_view start image_url prompt negative seed resolution
    area shift (st : State) r st' :
  generation_steps env start image_url prompt negative seed resolution area shift st
  = (r, st') ->
  StepsRun env start image_url prompt negative seed resolution area shift st r st'.
Proof.
  unfold generation_steps. unfold_monad. reduce_state.
  match goal with |- context [download_image env _ _ ?s] =>
    change s with (at_downloading env start st) end.
  destruct (download_image env image_url 30 (at_downloading env start st))
    as [[image|e] st1] eqn:Hdl; apply download_image_view in Hdl.
  2: { intros [= <- <-]. now apply StepsDownloadFails. }
  reduce_state.
  match goal with |- context [load_model env ?s] =>
    change s with (at_loading env start st1) end.
  destruct (load_model env (at_loading env start st1))
    as [[[model cfg]|e] st2] eqn:Hld; apply load_model_view in Hld.
  2: { intros [= <- <-]. now apply StepsLoadFails with (image := image) (st1 := st1). }
  reduce_state.
  pose proof (eq_refl : generate_call prompt image area shift negative seed model cfg
                        = generate_call prompt image area shift negative seed model cfg)
    as Hcall.
  unfold generate_call at 2 in Hcall.
  destruct (attr_generate model) as [m|e].
  2: { intros [= <- <-]. now apply StepsArgumentsFail with (image := image) (st1 := st1)
                                     (model := model) (cfg := cfg). }
  destruct (truthy negative).
  - destruct (py_ge_zero seed) as [nonneg|e].
    2: { intros [= <- <-]. now apply StepsArgumentsFail with (image := image) (st1 := st1)
                                       (model := model) (cfg := cfg). }
    view_from_generate start cfg st2 Hdl Hld Hcall.
  - destruct (attr_config cfg "sample_neg_prompt" _) as [the_n_prompt|e].
    2: { intros [= <- <-]. now apply StepsArgumentsFail with (image := image) (st1 := st1)
                                       (model := model) (cfg := cfg). }
    destruct (py_ge_zero seed) as [nonneg|e].
    2: { intros [= <- <-]. now apply StepsArgumentsFail with (image := image) (st1 := st1)
                                       (model := model) (cfg := cfg). }
    view_from_generate start cfg st2 Hdl Hld Hcall.
Qed.

(** ** The helper functions *)


(** The calls a helper has added to the trace. *)
Ltac new_calls Hcs :=
  unfold with_calls in Hcs; cbn [events calls model_cache clock] in Hcs;
  apply app_inv_head in Hcs; subst.

(** Which element of a concrete trace a call is. *)
Ltac pick_call H :=
  cbn [In] in H;
  repeat match type of H with
         | _ \/ _ => destruct H as [H|H]
         end;
  try discriminate H; try contradiction H.

(** X1.  [download_image] returns an image exactly when the GET answers
    without an error status, the body is written to a temporary [.jpg]
    file, that file is decoded as RGB and then deleted; the image returned
    is the decoded one. *)
Theorem download_image_returns_decoded_body (url : pyval) (timeout : Z)
    (st : State) (img : Image) :
  fst (download_image env url timeout st) = Ok img
  <-> exists resp tmp,
        requests_get env url timeout = Ok resp
        /\ status_error resp = None
        /\ temp_file env ".jpg" (content resp) = Ok tmp
        /\ image_open env tmp "RGB" = Ok img
        /\ unlink_temp env tmp = Ok tt.
Proof.
  split.
  - destruct (download_image env url timeout st) as [r st'] eqn:Hrun.
    apply download_image_view in Hrun. cbn [fst]. intros ->.
    inversion Hrun; subst. eauto 10.
  - intros (resp & tmp & Hget & Hstatus & Htemp & Hopen & Hunlink).
    unfold download_image, raise_for_status. unfold_monad.
    now rewrite Hget, Hstatus, Htemp, Hopen, Hunlink.
Qed.


(** X3.  [download_image] creates a temporary file only for a response
    without an error status; its suffix is [.jpg] and its content is the body
    of that response. *)
Theorem temp_file_holds_response_body (url : pyval) (timeout : Z) (st : State)
    (r : result Image) (st' : State) (cs : list Call) (suffix body : string) :
  download_image env url timeout st = (r, st') ->
  calls st' = calls st ++ cs ->
  In (CallTempFile suffix body) cs ->
  suffix = ".jpg"
  /\ exists resp, requests_get env url timeout = Ok resp
                  /\ status_error resp = None
                  /\ body = content resp.
Proof.
  intros Hrun Hcs Hin. apply download_image_view in Hrun.
  inversion Hrun; subst; new_calls Hcs; pick_call Hin;
    injection Hin as <- <-; eauto.
Qed.

(** X4.  [_upload] returns a link exactly when the file opens and the POST
    answers without an error status; the link is the stripped text of the
    response. *)
Theorem upload_returns_stripped_text (path : string) (st : State) (link : string) :
  fst (_upload env path st) = Ok link
  <-> exists r,
        open_rb env path = Ok tt
        /\ requests_post env (post_args path) = Ok r
        /\ status_error r = None
        /\ link = strip env (text r).
Proof.
  split.
  - destruct (_upload env path st) as [r st'] eqn:Hrun.
    apply _upload_view in Hrun. cbn [fst]. intros ->.
    inversion Hrun; subst. eauto 10.
  - intros (r & Hopen & Hpost & Hstatus & ->).
    unfold _upload, raise_for_status. unfold_monad. fold (post_args path).
    now rewrite Hopen, Hpost, Hstatus.
Qed.

(** X5.  [_upload] has no [except] clause: the exception it raises is the
    one of [open], of [requests.post] or of [raise_for_status], unchanged,
    and no request is sent when the file cannot be opened; otherwise one
    request is sent. *)
Theorem upload_failure_is_the_cause (path : string) (st : State) (e : exn)
    (st' : State) (cs : list Call) :
  _upload env path st = (Raise e, st') ->
  calls st' = calls st ++ cs ->
  (open_rb env path = Raise e /\ stages cs = [])
  \/ (open_rb env path = Ok tt
      /\ stages cs = [5%nat]
      /\ (requests_post env (post_args path) = Raise e
          \/ exists r, requests_post env (post_args path) = Ok r
                       /\ status_error r = Some e)).
Proof.
  intros Hrun Hcs. apply _upload_view in Hrun.
  inversion Hrun; subst; new_calls Hcs; cbn [stages stage]; eauto 10.
Qed.

(** ** Every run of a job *)

(** The [try] block on an input that passes the pre-flight checks: the
    table lookup of line 126 or 130, then the generation steps. *)
Lemma body_run_accepted cache t job d :
  job_input_of job = PDict d ->
  preflight_rejects d = false ->
  body_run env cache t job
  = match MAX_AREA_CONFIGS env !! size_key_of (dict_get d "resolution" (PStr "720p")) with
    | Some area =>
        generation_steps env (time env t)
          (dict_get d "image_url" PNone) (dict_get d "prompt" PNone)
          (dict_get d "negative" (PStr "")) (dict_get d "seed" (PInt (-1)))
          (dict_get d "resolution" (PStr "720p"))
          area (shift_of (dict_get d "resolution" (PStr "720p")))
          (mkState [] [] cache (S t))
    | None =>
        (Raise (KeyError (size_key_of (dict_get d "resolution" (PStr "720p")))),
         mkState [] [] cache (S t))
    end.
Proof.
  intros Hin Hrej. unfold body_run, try_body. rewrite Hin.
  unfold preflight_rejects in Hrej.
  apply orb_false_iff in Hrej as [Hrej Hres].
  unfold_monad. cbn [py_get]. rewrite Hrej.
  apply negb_false_iff in Hres. unfold size_key_of, shift_of, getitem.
  destruct (py_eq_str (dict_get d "resolution" (PStr "720p")) "720p").
  - now destruct (MAX_AREA_CONFIGS env !! "1280*720").
  - cbn [orb] in Hres. rewrite Hres.
    now destruct (MAX_AREA_CONFIGS env !! "832*480").
Qed.

Lemma job_view cache t job : JobView env cache t job.
Proof.
  destruct (job_run env cache t job) as [d msg Hin Hrej Hbody | e Hvalid Hbody
                                    | d e st1 Hin Hrej Hbody _ | d st1 Hin Hrej Hbody _].
  - apply JobNoSteps with (r := Ok tt) (evs := [invalid_input_event msg]); eauto.
  - apply JobNoSteps with (r := Raise e) (evs := []); eauto.
  - pose proof (body_run_accepted cache t job d Hin Hrej) as Hacc.
    destruct (MAX_AREA_CONFIGS env !! _) as [area|] eqn:Harea.
    + rewrite Hbody in Hacc. symmetry in Hacc.
      apply generation_steps_view in Hacc.
      now apply JobSteps with (d := d) (area := area) (r := Raise e) (st' := st1).
    + rewrite Hacc in Hbody. injection Hbody as <- <-.
      now apply JobNoSteps with (r := Raise (KeyError (size_key_of
                                   (dict_get d "resolution" (PStr "720p"))))) (evs := []).
  - pose proof (body_run_accepted cache t job d Hin Hrej) as Hacc.
    destruct (MAX_AREA_CONFIGS env !! _) as [area|] eqn:Harea.
    + rewrite Hbody in Hacc. symmetry in Hacc.
      apply generation_steps_view in Hacc.
      now apply JobSteps with (d := d) (area := area) (r := Ok tt) (st' := st1).
    + rewrite Hacc in Hbody. discriminate.
Qed.

(** What the handler leaves behind, from the run of its [try] block. *)
Lemma job_of_body cache t job r st' :
  body_run env cache t job = (r, st') ->
  job_calls env cache t job = calls st'
  /\ job_cache env cache t job = model_cache st'
  /\ job_events env cache t job
     = events st'
       ++ match r with
          | Ok _ => []
          | Raise e =>
              [failure_event (exn_msg e) (error_code_of (exn_msg e))
                 (PrimFloat.sub (time env (clock st')) (time env t))
                 (PrimFloat.sub (time env (S (clock st'))) (time env t))]
          end.
Proof.
  intros Hbody. unfold job_calls, job_cache, job_events.
  rewrite run_job_body, Hbody.
  destruct r as [[]|e]; [|rewrite except_clause_run]; cbn [snd events calls model_cache];
    rewrite ?app_nil_r; auto.
Qed.

Ltac invert_run H := inversion H; subst; clear H.

Ltac invert_runs :=
  repeat match goal with
         | H : DownloadRun _ _ _ _ _ _ |- _ => invert_run H
         | H : LoadRun _ _ _ _ |- _ => invert_run H
         | H : UploadRun _ _ _ _ _ |- _ => invert_run H
         end.

(** The final state of a run, normalised. *)
Ltac reduce_run :=
  cbn [at_completed at_uploading at_saving at_generating at_loading
       at_downloading reported with_calls events calls model_cache clock app] in *.

(** Every run of a job, with [job_calls], [job_cache] and [job_events]
    computed. *)
Ltac job_cases cache t job :=
  let r := fresh "r" in
  let evs := fresh "evs" in
  let Hbody := fresh "Hbody" in
  let Hevs := fresh "Hevs" in
  let d := fresh "d" in
  let area := fresh "area" in
  let st' := fresh "st'" in
  let Hinput := fresh "Hinput" in
  let Hrejects := fresh "Hrejects" in
  let Harea := fresh "Harea" in
  let Hsteps := fresh "Hsteps" in
  let Hc := fresh "Hcalls" in
  let Hm := fresh "Hcache" in
  let He := fresh "Hevents" in
  destruct (job_view cache t job)
    as [r evs Hbody Hevs | d area r st' Hinput Hrejects Harea Hbody Hsteps];
  destruct (job_of_body cache t job _ _ Hbody) as (Hc & Hm & He);
  rewrite ?Hc, ?Hm, ?He; clear Hc Hm He Hbody;
  [ destruct r as [[]|?]; [destruct Hevs as [? ->] | subst evs]
  | invert_run Hsteps; invert_runs ];
  try match goal with
      | H : _ \/ _ |- _ => destruct H as [(? & ? & ->) | (? & ->)]
      end;
  reduce_run.


(** What a successful evaluation of the arguments of [generate] yields. *)
Lemma generate_call_ok prompt (image : Image) area shift negative seed
    (model cfg : obj Model) m a :
  generate_call prompt image area shift negative seed model cfg = Ok (m, a) ->
  model = ObjModel m
  /\ (if truthy negative then n_prompt a = negative
      else exists c, cfg = ObjConfig c /\ n_prompt a = PStr (sample_neg_prompt c))
  /\ exists nonneg,
       py_ge_zero seed = Ok nonneg
       /\ a = mkGenerateArgs prompt image area 81 shift "unipc" 40 5%float
                             (n_prompt a) (if nonneg then seed else PInt (-1)) true.
Proof.
  unfold generate_call, attr_generate, attr_config, no_attribute.
  destruct model as [m'|]; [|discriminate].
  destruct (truthy negative).
  - destruct (py_ge_zero seed) as [nonneg|]; [|discriminate].
    intros [= <- <-]. cbn. eauto.
  - destruct cfg as [|c]; [discriminate|].
    destruct (py_ge_zero seed) as [nonneg|]; [|discriminate].
    intros [= <- <-]. cbn. eauto 10.
Qed.

(** The resolution of an accepted input is one of the two of lines 124
    and 128. *)
Lemma accepted_resolution (d : pydict) :
  preflight_rejects d = false ->
  dict_get d "resolution" (PStr "720p") = PStr "720p"
  \/ (dict_get d "resolution" (PStr "720p") <> PStr "720p"
      /\ dict_get d "resolution" (PStr "720p") = PStr "480p").
Proof.
  unfold preflight_rejects. intros H.
  apply orb_false_iff in H as [_ H].
  apply negb_false_iff, orb_true_iff in H as [H|H].
  - left. now apply py_eq_str_true.
  - destruct (py_eq_str (dict_get d "resolution" (PStr "720p")) "720p") eqn:H1.
    + left. now apply py_eq_str_true.
    + right. split; [now apply py_eq_str_false | now apply py_eq_str_true].
Qed.

(** The classification of the error of line 74. *)
Lemma model_path_error_code (p : string) :
  error_code_of ("Model path not found: " +:+ p)
  = if contains "download" (lower p) then "DOWNLOAD_ERROR" else "MODEL_ERROR".
Proof.
  unfold error_code_of. rewrite lower_app.
  generalize (lower p) as q. intros q.
  change (lower "Model path not found: ") with "model path not found: ".
  replace (contains "download" ("model path not found: " +:+ q))
    with (contains "download" q) by reflexivity.
  replace (contains "model" ("model path not found: " +:+ q)) with true by reflexivity.
  reflexivity.
Qed.

(** The input of the job is the dictionary of the view. *)
Ltac same_input :=
  match goal with
  | H1 : job_input_of ?job = PDict ?d, H2 : job_input_of ?job = PDict ?d2 |- _ =>
      rewrite H1 in H2; injection H2 as <-
  end.

(** A call is in a concrete trace. *)
Ltac find_call := cbn [In]; repeat first [ left; reflexivity | right ].

Ltac use_generate_call :=
  match goal with
  | H : generate_call _ _ _ _ _ _ _ _ = Ok _ |- _ =>
      apply generate_call_ok in H;
      let nonneg := fresh "nonneg" in
      let Hneg := fresh "Hnegative" in
      let Hseed := fresh "Hseed" in
      let Hargs := fresh "Hargs" in
      let Hm := fresh "Hm" in
      destruct H as (Hm & Hneg & nonneg & Hseed & Hargs);
      first [ injection Hm as Hm; subst | subst ]
  end.

(** ** The order of the steps, the constructor and the cache *)

(** X6.  The collaborators of a job are called in the order of the steps
    and at most once each: the GET, the model constructor, the generation,
    the encoder, the POST.  Nothing is retried. *)
Theorem collaborators_called_once_in_order cache t job :
  StronglySorted lt (stages (job_calls env cache t job)).
Proof.
  job_cases cache t job; cbn [stages stage]; repeat constructor.
Qed.

(** X7.  A job that has entered a helper or a collaborator of a step has
    yielded the progress event of that step. *)
Theorem entered_steps_are_reported cache t job (c : Call) (s : string) :
  In c (job_calls env cache t job) ->
  reported_as c = Some s ->
  In (Some (PStr s)) (statuses (job_events env cache t job)).
Proof.
  revert c s.
  job_cases cache t job; intros c s Hin Hs; pick_call Hin; subst c;
    try discriminate Hs; injection Hs as <-;
    unfold statuses; cbn; auto 10.
Qed.

(** X8.  The constructor of the model is only called on a process that has
    no cached model, with the configuration [i2v-14B], with the directory
    named by [MODEL_PATH] (or the default one) once that directory has been
    found, on device 0 and rank 0, and with the four parallelism flags
    off. *)
Theorem model_constructed_from_checkpoint cache t job (a : WanI2VArgs) :
  In (CallWanI2V a) (job_calls env cache t job) ->
  model_cached cache = false
  /\ model_path_exists env (checkpoint_dir a) = true
  /\ exists cfg,
       WAN_CONFIGS env !! "i2v-14B" = Some cfg
       /\ a = mkWanI2VArgs cfg
                (default default_model_path (environ env !! "MODEL_PATH"))
                0 0 false false false false.
Proof.
  revert a.
  job_cases cache t job; intros a0 Hin; pick_call Hin;
    injection Hin as <-; unfold model_cached;
    match goal with H : cache !! "wan_i2v" = None |- _ => rewrite H end;
    cbn [wan_args checkpoint_dir]; eauto.
Qed.

(** X9.  A job leaves [model_cache] as it found it, unless it has
    constructed the model: then the cache has gained the model and the
    configuration it was constructed from, and nothing else. *)
Theorem job_changes_cache_only_by_construction cache t job :
  job_cache env cache t job = cache
  \/ exists cfg m,
       model_cached cache = false
       /\ WAN_CONFIGS env !! "i2v-14B" = Some cfg
       /\ WanI2V env (wan_args env cfg) = Ok m
       /\ job_cache env cache t job
          = <["config" := ObjConfig cfg]> (<["wan_i2v" := ObjModel m]> cache).
Proof.
  job_cases cache t job; auto;
    right; unfold model_cached;
    match goal with H : cache !! "wan_i2v" = None |- _ => rewrite H end;
    eauto 10.
Qed.

(** ** What the generation, the encoder and the upload receive *)

(** X10.  The generation runs on the area that [MAX_AREA_CONFIGS] gives for
    the size of the requested resolution, with shift 5.0 for 720p and 3.0 for
    480p. *)
Theorem resolution_selects_area_and_shift cache t job d (m : Model)
    (a : GenerateArgs Image) :
  job_input_of job = PDict d ->
  In (CallGenerate m a) (job_calls env cache t job) ->
  (dict_get d "resolution" (PStr "720p") = PStr "720p"
   /\ MAX_AREA_CONFIGS env !! "1280*720" = Some (max_area a)
   /\ shift a = 5%float)
  \/ (dict_get d "resolution" (PStr "720p") = PStr "480p"
      /\ MAX_AREA_CONFIGS env !! "832*480" = Some (max_area a)
      /\ shift a = 3%float).
Proof.
  revert m a.
  job_cases cache t job; intros m1 a1 Hd Hin; pick_call Hin;
    injection Hin as <- <-; same_input; use_generate_call;
    rewrite Hargs; cbn [max_area shift];
    revert Harea; unfold size_key_of, shift_of;
    (destruct (accepted_resolution _ Hrejects) as [Hres | [Hne Hres]];
     [ rewrite (proj2 (py_eq_str_true _ _) Hres); auto
     | rewrite (proj2 (py_eq_str_false _ _) Hne); auto ]).
Qed.

(** X11.  The generation receives the prompt of the job, 81 frames, the
    [unipc] solver, 40 sampling steps, guide scale 5.0 and model
    offloading; none of them can be set by the job. *)
Theorem generate_receives_fixed_settings cache t job d (m : Model)
    (a : GenerateArgs Image) :
  job_input_of job = PDict d ->
  In (CallGenerate m a) (job_calls env cache t job) ->
  gen_prompt a = dict_get d "prompt" PNone
  /\ frame_num a = 81
  /\ sample_solver a = "unipc"
  /\ sampling_steps a = 40
  /\ guide_scale a = 5%float
  /\ offload_model a = true.
Proof.
  revert m a.
  job_cases cache t job; intros m1 a1 Hd Hin; pick_call Hin;
    injection Hin as <- <-; same_input; use_generate_call;
    rewrite Hargs; cbn; auto 10.
Qed.

(** X12.  The negative prompt of the generation is the one of the job when
    it is truthy, and otherwise the default negative prompt of the cached
    configuration: an empty [negative] cannot switch the default off. *)
Theorem negative_prompt_defaults_to_config cache t job d (m : Model)
    (a : GenerateArgs Image) :
  job_input_of job = PDict d ->
  In (CallGenerate m a) (job_calls env cache t job) ->
  if truthy (dict_get d "negative" (PStr "")) then
    n_prompt a = dict_get d "negative" (PStr "")
  else
    exists cfg, job_cache env cache t job !! "config" = Some (ObjConfig cfg)
                /\ n_prompt a = PStr (sample_neg_prompt cfg).
Proof.
  revert m a.
  job_cases cache t job; intros m1 a1 Hd Hin; pick_call Hin;
    injection Hin as <- <-; same_input; use_generate_call;
    revert Hnegative;
    (match goal with |- _ -> if ?b then _ else _ => destruct b end;
     [ intros Hnegative; exact Hnegative
     | intros (c & Hc & Hn); exists c; (split; [|exact Hn]);
       first [ congruence | injection Hc as <-; apply lookup_insert_eq ] ]).
Qed.

(** X13.  The generation runs on the cached model and on the image that the
    decoder returned for the temporary file holding the body of the GET of
    [image_url], requested with a timeout of 30 seconds. *)
Theorem generate_receives_downloaded_image cache t job d (m : Model)
    (a : GenerateArgs Image) :
  job_input_of job = PDict d ->
  In (CallGenerate m a) (job_calls env cache t job) ->
  job_cache env cache t job !! "wan_i2v" = Some (ObjModel m)
  /\ exists resp tmp,
       requests_get env (dict_get d "image_url" PNone) 30 = Ok resp
       /\ status_error resp = None
       /\ temp_file env ".jpg" (content resp) = Ok tmp
       /\ image_open env tmp "RGB" = Ok (gen_image a).
Proof.
  revert m a.
  job_cases cache t job; intros m1 a1 Hd Hin; pick_call Hin;
    injection Hin as <- <-; same_input; use_generate_call;
    rewrite Hargs; cbn [gen_image];
    (split; [ first [ assumption
                    | rewrite lookup_insert_ne by discriminate; apply lookup_insert_eq ]
            | eauto 10 ]).
Qed.

(** X14.  The encoder writes to [/tmp/wan21_i2v_<8 hex digits>.mp4], one
    video per row, normalised from the range (-1, 1); it receives the video
    that the generation returned, with a batch axis added, and the frame
    rate of the cached configuration. *)
Theorem video_is_encoded_to_tmp_file cache t job (enc : CacheVideoArgs Video) :
  In (CallCacheVideo enc) (job_calls env cache t job) ->
  save_file enc = "/tmp/wan21_i2v_" +:+ String.substring 0 8 (uuid4_hex env) +:+ ".mp4"
  /\ nrow enc = 1
  /\ normalize enc = true
  /\ value_range enc = (-1, 1)
  /\ exists m a video cfg,
       In (CallGenerate m a) (job_calls env cache t job)
       /\ generate env m a = Ok video
       /\ tensor enc = index_none env video
       /\ job_cache env cache t job !! "config" = Some (ObjConfig cfg)
       /\ fps enc = sample_fps cfg.
Proof.
  revert enc.
  job_cases cache t job; intros enc0 Hin;
    pick_call Hin; injection Hin as <-;
    (split; [reflexivity|]); (split; [reflexivity|]);
    (split; [reflexivity|]); (split; [reflexivity|]);
    match goal with
    | Hg : generate env ?m ?a = Ok ?video,
      Hf : attr_config ?cfg "sample_fps" sample_fps = Ok ?the_fps |- _ =>
        exists m, a, video;
        destruct cfg as [|c]; [discriminate Hf|];
        injection Hf as <-; exists c
    end;
    (split; [find_call|]); (split; [assumption|]); (split; [reflexivity|]);
    (split; [|reflexivity]);
    first [ assumption | apply lookup_insert_eq ].
Qed.

(** X15.  The file that is uploaded is the one the encoder has just
    written: [_upload] is entered only after [cache_video] has returned,
    and with its [save_file]. *)
Theorem uploaded_file_is_encoded_video cache t job (p : string) :
  In (CallUpload p) (job_calls env cache t job) ->
  exists enc,
    In (CallCacheVideo enc) (job_calls env cache t job)
    /\ cache_video env enc = Ok tt
    /\ save_file enc = p.
Proof.
  revert p.
  job_cases cache t job; intros p Hin; pick_call Hin; injection Hin as <-;
    eexists; (split; [find_call|]); (split; [eassumption|reflexivity]).
Qed.

(** X16.  The [video_url] of the final result is the stripped text of the
    answer to the POST of the output file, and that answer carries no error
    status. *)
Theorem completed_url_is_stripped_response cache t job (ev : pydict) :
  In ev (job_events env cache t job) ->
  status_of ev = Some (PStr "completed") ->
  exists r,
    In (CallRequestsPost (post_args (output_path env))) (job_calls env cache t job)
    /\ requests_post env (post_args (output_path env)) = Ok r
    /\ status_error r = None
    /\ dict_lookup ev "video_url" = Some (PStr (strip env (text r))).
Proof.
  revert ev.
  job_cases cache t job; intros ev Hin Hst;
    pick_call Hin; subst ev; try discriminate Hst;
    eexists; (split; [find_call|]); eauto.
Qed.

(** X17.  After [_upload] has been entered, the only file a job deletes is
    its output file, and only when the POST has answered without an error
    status and the file still exists: a failed upload leaves the video in
    [/tmp]. *)
Theorem output_removed_only_after_upload cache t job (q : string) :
  In (CallUnlink q) (after_upload (job_calls env cache t job)) ->
  q = output_path env
  /\ output_exists env q = true
  /\ exists r, requests_post env (post_args q) = Ok r /\ status_error r = None.
Proof.
  revert q.
  job_cases cache t job; cbn [after_upload]; intros q Hin; pick_call Hin;
    injection Hin as <-; eauto.
Qed.

(** ** Failures before the generation *)

(** X18.  When the model is not cached and the model directory does not
    exist, a job that reaches the loading step calls no collaborator but the
    GET, leaves the cache alone and ends with a failure whose error names
    the directory; its code is [MODEL_ERROR], unless the name of the
    directory contains "download" in any case: then it is
    [DOWNLOAD_ERROR]. *)
Theorem missing_model_path_fails_job cache t job :
  model_cached cache = false ->
  model_path_exists env (model_path env) = false ->
  In CallLoadModel (job_calls env cache t job) ->
  stages (job_calls env cache t job) = [1%nat]
  /\ job_cache env cache t job = cache
  /\ exists pt ts,
       List.last (job_events env cache t job) []
       = failure_event ("Model path not found: " +:+ model_path env)
           (if contains "download" (lower (model_path env))
            then "DOWNLOAD_ERROR" else "MODEL_ERROR")
           pt ts.
Proof.
  unfold model_cached.
  job_cases cache t job; intros Hcold Hmissing Hin; pick_call Hin;
    try match goal with
        | H : cache !! "wan_i2v" = Some _ |- _ => rewrite H in Hcold; discriminate
        | H : model_path_exists env (model_path env) = true |- _ => congruence
        end.
  split; [reflexivity|]. split; [reflexivity|].
  eexists _, _. cbn [List.last exn_msg RuntimeError].
  now rewrite model_path_error_code.
Qed.

(** A job keeps the cache in the shape [load_model] gives it. *)
Lemma job_cache_well_formed cache t job :
  cache_well_formed cache -> cache_well_formed (job_cache env cache t job).
Proof.
  job_cases cache t job; auto; intros _; unfold cache_well_formed;
    rewrite lookup_insert_ne by discriminate; rewrite !lookup_insert_eq; eauto.
Qed.

(** X19.  On a process whose cache holds the model and its configuration, a
    job with a numeric seed that gets its image cannot fail before the
    generation: it calls [generate] on the cached model. *)
Theorem warm_process_reaches_generation cache t job d (nonneg : bool) :
  cache_well_formed cache ->
  model_cached cache = true ->
  job_input_of job = PDict d ->
  py_ge_zero (dict_get d "seed" (PInt (-1))) = Ok nonneg ->
  In CallLoadModel (job_calls env cache t job) ->
  exists m a,
    In (CallGenerate m a) (job_calls env cache t job)
    /\ cache !! "wan_i2v" = Some (ObjModel m).
Proof.
  unfold cache_well_formed, model_cached.
  job_cases cache t job; intros Hwf Hwarm Hd Hseed Hin; pick_call Hin;
    try match goal with
        | H : cache !! "wan_i2v" = None |- _ => rewrite H in Hwarm; discriminate
        end;
    same_input;
    match goal with
    | H : cache !! "wan_i2v" = Some _ |- _ =>
        rewrite H in Hwf; destruct Hwf as ((m' & ->) & (c' & Hc'))
    end;
    try congruence;
    match goal with
    | H : cache !! "config" = Some _ |- _ => rewrite H in Hc'; injection Hc' as ->
    end;
    match goal with
    | H : generate_call _ _ _ _ _ _ _ _ = Raise _ |- _ =>
        exfalso; revert H; unfold generate_call; cbn [attr_generate attr_config];
        rewrite Hseed; destruct (truthy _); discriminate
    | H : generate_call _ _ _ _ _ _ _ _ = Ok _ |- _ =>
        apply generate_call_ok in H; destruct H as ([= <-] & _);
        eexists _, _; split; [find_call | assumption]
    end.
Qed.

(** X20.  A seed that cannot be compared with 0 (a string, a list, a
    dictionary, [null]) is not rejected by the validation, but the job never
    calls [generate] and never completes. *)
Theorem non_numeric_seed_never_generates cache t job d (e : exn) :
  job_input_of job = PDict d ->
  py_ge_zero (dict_get d "seed" (PInt (-1))) = Raise e ->
  (forall m a, ~ In (CallGenerate m a) (job_calls env cache t job))
  /\ ~ In (Some (PStr "completed")) (statuses (job_events env cache t job)).
Proof.
  unfold statuses.
  job_cases cache t job; intros Hd Hseed;
    try (same_input; use_generate_call; congruence);
    (split; [intros m' a' Hin | intros Hin; cbn in Hin]); pick_call Hin.
Qed.

(** X21.  An [input] that is not a mapping makes [job_input.get] raise
    inside the [try] block: the job is answered with one failure event of
    code [GENERATION_ERROR], not [INVALID_INPUT], and nothing is called. *)
Theorem non_mapping_input_is_generation_error cache t job :
  (forall d, job_input_of job <> PDict d) ->
  job_calls env cache t job = []
  /\ job_cache env cache t job = cache
  /\ job_events env cache t job
     = [failure_event
          ("'" +:+ type_name (job_input_of job) +:+ "' object has no attribute 'get'")
          "GENERATION_ERROR"
          (PrimFloat.sub (time env (S t)) (time env t))
          (PrimFloat.sub (time env (S (S t))) (time env t))].
Proof.
  intros Hinput.
  assert (Hbody : body_run env cache t job
                  = (Raise (AttributeError ("'" +:+ type_name (job_input_of job)
                                            +:+ "' object has no attribute 'get'")),
                     mkState [] [] cache (S t))).
  { unfold body_run, try_body. unfold_monad.
    destruct (job_input_of job); try reflexivity. now destruct (Hinput d). }
  destruct (job_of_body cache t job _ _ Hbody) as (-> & -> & ->).
  cbn [events calls model_cache clock app exn_msg AttributeError].
  repeat split. f_equal.
  destruct (job_input_of job); reflexivity.
Qed.

(** X22.  When [MAX_AREA_CONFIGS] has no entry for the size of the
    resolution, the [KeyError] of line 126 or 130 is raised before step 1:
    the job reports no progress, calls nothing, and ends with one failure
    event of code [GENERATION_ERROR] whose error is the quoted key. *)
Theorem missing_area_is_generation_error cache t job d :
  job_input_of job = PDict d ->
  preflight_rejects d = false ->
  MAX_AREA_CONFIGS env !! size_key_of (dict_get d "resolution" (PStr "720p")) = None ->
  job_calls env cache t job = []
  /\ job_events env cache t job
     = [failure_event
          ("'" +:+ size_key_of (dict_get d "resolution" (PStr "720p")) +:+ "'")
          "GENERATION_ERROR"
          (PrimFloat.sub (time env (S t)) (time env t))
          (PrimFloat.sub (time env (S (S t))) (time env t))].
Proof.
  intros Hinput Hrejects Harea.
  pose proof (body_run_accepted cache t job d Hinput Hrejects) as Hbody.
  rewrite Harea in Hbody.
  destruct (job_of_body cache t job _ _ Hbody) as (-> & _ & ->).
  cbn [events calls model_cache clock app exn_msg KeyError].
  split; [reflexivity|]. f_equal. unfold size_key_of.
  now destruct (py_eq_str _ _).
Qed.



End Flow.

(** ** A process that serves jobs *)

Section Service.
Context {Image Video Model : Type}.

Local Abbreviation Env := (Env Image Video Model).
Local Abbreviation State := (State Image Video Model).

Lemma serve_keeps_cache_well_formed cache t (jobs : list (Env * pydict)) :
  cache_well_formed cache ->
  Forall (fun st : State => cache_well_formed (model_cache st)) (serve cache t jobs).
Proof.
  revert cache t. induction jobs as [|[env job] rest IH]; intros cache t Hwf; cbn [serve].
  - apply List.Forall_nil.
  - pose proof (job_cache_well_formed env cache t job Hwf) as Hjob.
    apply List.Forall_cons; [exact Hjob|]. apply IH. exact Hjob.
Qed.

(** X23.  On a process that starts with an empty cache, whatever jobs it
    serves and whatever their collaborators do, the cache never holds a
    model without its configuration, nor anything but a model object under
    [wan_i2v] and a configuration object under [config]. *)
Theorem fresh_process_cache_is_well_formed (t : nat) (jobs : list (Env * pydict)) :
  Forall (fun st : State => cache_well_formed (model_cache st)) (serve ∅ t jobs).
Proof.
  apply serve_keeps_cache_well_formed. unfold cache_well_formed.
  now rewrite lookup_empty.
Qed.

End Service.

(** ** The command line *)

Section CommandLineFacts.
Context {Image Video Model : Type}.
Variable env : Env Image Video Model.
Variable json : Json.

Local Abbreviation State := (State Image Video Model).

Lemma index_of_none (x : string) (argv : list string) :
  index_of x argv = None <-> ~ In x argv.
Proof.
  induction argv as [|y rest IH]; cbn [index_of In]; [tauto|].
  destruct (String.eqb_spec y x) as [->|Hne].
  - split; [discriminate | intros H; destruct H; now left].
  - destruct (index_of x rest); cbn [option_map].
    + split; [discriminate|]. intros H. exfalso.
      assert (Hout : ~ In x rest) by tauto.
      apply IH in Hout. discriminate.
    + split; [|auto]. intros _ [H|H]; [congruence|]. now apply IH.
Qed.

Lemma index_of_first (x : string) (pre post : list string) :
  ~ In x pre -> index_of x (pre ++ x :: post) = Some (length pre).
Proof.
  induction pre as [|y pre IH]; cbn [index_of app In length]; intros Hout.
  - now rewrite String.eqb_refl.
  - destruct (String.eqb_spec y x) as [->|Hne]; [tauto|].
    rewrite IH by tauto. reflexivity.
Qed.

(** The argument of the flag is the element that follows its first
    occurrence. *)
Lemma main_test_input (pre post : list string) (x : string) :
  ~ In "--test_input" pre ->
  main env json (pre ++ "--test_input" :: x :: post)
  = match loads json x with
    | Ok job =>
        match run_test env json job fresh_state with
        | (Ok _, stdout, st) => Exited stdout st
        | (Raise e, stdout, st) =>
            if is_decode_error e
            then Exited (stdout ++ ["Error: Invalid JSON in test_input"]) st
            else Crashed stdout e st
        end
    | Raise e =>
        if is_decode_error e
        then Exited ["Error: Invalid JSON in test_input"] fresh_state
        else Crashed [] e fresh_state
    end.
Proof.
  intros Hout. unfold main. rewrite index_of_first by exact Hout.
  replace (nth_error (pre ++ "--test_input" :: x :: post) (length pre + 1))
    with (Some x); [reflexivity|].
  clear Hout. induction pre as [|y pre IH]; [reflexivity|exact IH].
Qed.

(** X24.  The script starts the service exactly when [--test_input] is not
    among its arguments; the service gets the handler with
    [return_aggregate_stream] on, and no job is run before. *)
Theorem serves_iff_no_test_flag (argv : list string) :
  main env json argv = Serving true <-> ~ In "--test_input" argv.
Proof.
  rewrite <- index_of_none. unfold main.
  destruct (index_of "--test_input" argv) as [i|]; [|tauto].
  split; [|discriminate]. intros H. exfalso. revert H.
  destruct (nth_error argv (i + 1)); [|discriminate].
  destruct (loads json s) as [job|e].
  - destruct (run_test env json job fresh_state) as [[[[]|e] out] st]; [discriminate|].
    destruct (is_decode_error e); discriminate.
  - destruct (is_decode_error e); discriminate.
Qed.

(** X25.  The text that is parsed is the argument after the first
    [--test_input]: the name of the script, the arguments before the flag
    and everything after the text, another [--test_input] included, have no
    effect. *)
Theorem test_input_is_first_flag_argument (pre post : list string) (x : string) :
  ~ In "--test_input" pre ->
  main env json (pre ++ "--test_input" :: x :: post)
  = main env json ["--test_input"; x].
Proof.
  intros Hout. rewrite main_test_input by exact Hout.
  symmetry. apply (main_test_input [] []). cbn [In]. tauto.
Qed.


(** X27.  In test mode a text that parses to anything but a JSON object (a
    list, a string, a number, [null]) ends the script with the uncaught
    [AttributeError] of [job.get] (line 99): nothing is printed, nothing is
    called, and no failure event is produced. *)
Theorem non_object_json_crashes (pre post : list string) (x : string) (job : pyval) :
  ~ In "--test_input" pre ->
  loads json x = Ok job ->
  (forall d, job <> PDict d) ->
  main env json (pre ++ "--test_input" :: x :: post)
  = Crashed []
      (AttributeError ("'" +:+ type_name job +:+ "' object has no attribute 'get'"))
      fresh_state.
Proof.
  intros Hout Hloads Hjob. rewrite main_test_input by exact Hout. rewrite Hloads.
  destruct job; try reflexivity. now destruct (Hjob d).
Qed.

(** X28.  A [--test_input] that is the last argument, and a text that
    [json.loads] rejects, are answered with one line on the standard output
    and a normal exit: no job is run and the service is not started. *)
Theorem usage_errors_run_nothing (pre : list string) :
  ~ In "--test_input" pre ->
  main env json (pre ++ ["--test_input"])
  = Exited ["Error: --test_input requires a JSON string argument"] fresh_state
  /\ forall (x : string) (post : list string) (e : exn),
       loads json x = Raise e ->
       exn_class e = "JSONDecodeError" ->
       main env json (pre ++ "--test_input" :: x :: post)
       = Exited ["Error: Invalid JSON in test_input"] fresh_state.
Proof.
  intros Hout. split.
  - unfold main. rewrite index_of_first by exact Hout.
    replace (nth_error (pre ++ ["--test_input"]) (length pre + 1)) with (@None string);
      [reflexivity|].
    symmetry. apply nth_error_None. rewrite length_app. cbn [length]. lia.
  - intros x post e Hloads Hclass. rewrite main_test_input by exact Hout.
    rewrite Hloads. unfold is_decode_error. now rewrite Hclass.
Qed.
End CommandLineFacts.

(** * Runs on concrete inputs *)

(** The spec's end-to-end scenario: the success event carries the requested
    resolution, the default seed and the fixed duration. *)
Example cat_job_succeeds :
  exists ev,
    List.last (job_events happy_env ∅ 0 cat_job) [] = ev
    /\ dict_lookup ev "resolution" = Some (PStr "480p")
    /\ dict_lookup ev "seed" = Some (PInt (-1))
    /\ dict_lookup ev "duration" = Some (PFloat 5%float)
    /\ status_of ev = Some (PStr "completed").
Proof. eexists. split; [vm_compute; reflexivity|]. repeat split. Qed.

(** Two jobs on one process: the first constructs the model, the second
    finds it. *)
Example second_job_reuses_model :
  map (fun st => constructions (calls st))
      (serve ∅ 0 [(happy_env, cat_job); (happy_env, cat_job)])
  = [1%nat; 0%nat].
Proof. vm_compute. reflexivity. Qed.

(** C2: the event of a job without [image_url] has no [processing_time]. *)
Lemma preflight_failure_counterexample :
  exists ev,
    In ev (job_events happy_env ∅ 0 no_image_job)
    /\ status_of ev = Some (PStr "failed")
    /\ dict_lookup ev "processing_time" = None
    /\ dict_lookup ev "timestamp" = None
    /\ ~ has_failure_fields ev.
Proof.
  exists (invalid_input_event "Missing required parameters: image_url and prompt").
  split; [vm_compute; left; reflexivity|]. repeat split.
  intros (error & code & pt & ts & _ & _ & _ & H & _). discriminate H.
Qed.

(** C2: a job whose generation fails. *)
Lemma failed_events_shape_witness :
  In (List.last (job_events generate_fails_env ∅ 0 cat_job) [])
     (job_events generate_fails_env ∅ 0 cat_job)
  /\ status_of (List.last (job_events generate_fails_env ∅ 0 cat_job) [])
     = Some (PStr "failed")
  /\ has_failure_fields (List.last (job_events generate_fails_env ∅ 0 cat_job) []).
Proof.
  assert (Hin : In (List.last (job_events generate_fails_env ∅ 0 cat_job) [])
                   (job_events generate_fails_env ∅ 0 cat_job))
    by (vm_compute; do 3 right; left; reflexivity).
  assert (Hst : status_of (List.last (job_events generate_fails_env ∅ 0 cat_job) [])
                = Some (PStr "failed")) by (vm_compute; reflexivity).
  split; [exact Hin|]. split; [exact Hst|].
  destruct (failed_events_shape generate_fails_env ∅ 0%nat cat_job _ Hin Hst)
    as [(_ & _ & Hpt & _) | (_ & Hfields & _)].
  - vm_compute in Hpt. discriminate Hpt.
  - exact Hfields.
Defined.

(** C3: the job [{"prompt": "x"}]. *)
Lemma invalid_input_witness :
  job_input_of no_image_job = PDict [("prompt", PStr "x")]
  /\ dict_lookup [("prompt", PStr "x")] "image_url" = None
  /\ job_events happy_env ∅ 0 no_image_job
     = [invalid_input_event "Missing required parameters: image_url and prompt"]
  /\ job_calls happy_env ∅ 0 no_image_job = [].
Proof.
  assert (Hin : job_input_of no_image_job = PDict [("prompt", PStr "x")]) by reflexivity.
  assert (Hurl : dict_lookup [("prompt", PStr "x")] "image_url" = None) by reflexivity.
  split; [exact Hin|]. split; [exact Hurl|].
  destruct (invalid_input_rejected_before_any_call happy_env ∅ 0%nat no_image_job _
              Hin (or_introl Hurl)) as (_ & Hcalls & _).
  split; [vm_compute; reflexivity | exact Hcalls].
Defined.

(** C4: a prompt that is present and empty is rejected. *)
Lemma empty_prompt_counterexample :
  exists d,
    job_input_of empty_prompt_job = PDict d
    /\ dict_lookup d "image_url" = Some (PStr "http://x/img.jpg")
    /\ dict_lookup d "prompt" = Some (PStr "")
    /\ rejected_by_validation happy_env ∅ 0 empty_prompt_job.
Proof.
  eexists. split; [reflexivity|]. split; [reflexivity|]. split; [reflexivity|].
  eexists. vm_compute. reflexivity.
Qed.

(** C4: the same job, through the theorem. *)
Lemma validation_witness :
  job_input_of empty_prompt_job
  = PDict [("image_url", PStr "http://x/img.jpg"); ("prompt", PStr "")]
  /\ rejected_by_validation happy_env ∅ 0 empty_prompt_job.
Proof.
  assert (Hin : job_input_of empty_prompt_job
                = PDict [("image_url", PStr "http://x/img.jpg"); ("prompt", PStr "")])
    by reflexivity.
  split; [exact Hin|].
  destruct (validation_checks_truthiness happy_env ∅ 0%nat empty_prompt_job _ Hin)
    as [_ Hempty].
  apply Hempty. reflexivity.
Defined.

(** C5: the spec's end-to-end scenario. *)
Lemma status_sequence_witness :
  In (List.last (job_events happy_env ∅ 0 cat_job) []) (job_events happy_env ∅ 0 cat_job)
  /\ status_of (List.last (job_events happy_env ∅ 0 cat_job) []) = Some (PStr "completed")
  /\ progress_values (job_events happy_env ∅ 0 cat_job) = [10; 20; 30; 80; 90].
Proof.
  assert (Hin : In (List.last (job_events happy_env ∅ 0 cat_job) [])
                   (job_events happy_env ∅ 0 cat_job))
    by (vm_compute; do 5 right; left; reflexivity).
  assert (Hst : status_of (List.last (job_events happy_env ∅ 0 cat_job) [])
                = Some (PStr "completed")) by (vm_compute; reflexivity).
  split; [exact Hin|]. split; [exact Hst|].
  exact (proj1 (proj2 (proj2 (successful_job_status_sequence happy_env ∅ 0%nat cat_job _
                                Hin Hst)))).
Defined.

(** C6: the model runs out of memory. *)
Lemma classified_by_priority_witness :
  body_run generate_fails_env ∅ 0 cat_job
  = (Raise (mkExn "OutOfMemoryError" "CUDA out of memory"),
     snd (body_run generate_fails_env ∅ 0 cat_job))
  /\ exists final code,
       job_events generate_fails_env ∅ 0 cat_job
       = events (snd (body_run generate_fails_env ∅ 0 cat_job)) ++ [final]
       /\ dict_lookup final "error" = Some (PStr "CUDA out of memory")
       /\ dict_lookup final "error_code" = Some (PStr code)
       /\ (Substring "cuda" "cuda out of memory" -> code = "MEMORY_ERROR").
Proof.
  assert (Hbody : body_run generate_fails_env ∅ 0 cat_job
                  = (Raise (mkExn "OutOfMemoryError" "CUDA out of memory"),
                     snd (body_run generate_fails_env ∅ 0 cat_job)))
    by (vm_compute; reflexivity).
  split; [exact Hbody|].
  destruct (exception_classified_by_priority generate_fails_env ∅ 0%nat cat_job _ _ Hbody)
    as (final & code & Hev & Herr & Hcode & _ & _ & _ & Hmem & _).
  exists final, code. split; [exact Hev|]. split; [exact Herr|]. split; [exact Hcode|].
  intros Hcuda. apply Hmem; [| |right; exact Hcuda];
    apply contains_false_spec; vm_compute; reflexivity.
Defined.

(** C7: an upload that fails and says so is still a memory error when its
    message speaks of memory. *)
Lemma upload_memory_counterexample :
  exists e st1 final,
    body_run upload_oom_env ∅ 0 cat_job = (Raise e, st1)
    /\ last_status (events st1) = Some (PStr "uploading")
    /\ Substring "upload" (lower (exn_msg e))
    /\ job_events upload_oom_env ∅ 0 cat_job = events st1 ++ [final]
    /\ dict_lookup final "error_code" = Some (PStr "MEMORY_ERROR")
    /\ dict_lookup final "error_code" <> Some (PStr "UPLOAD_ERROR").
Proof.
  eexists _, _, _. split; [vm_compute; reflexivity|].
  split; [vm_compute; reflexivity|].
  split; [apply contains_spec; vm_compute; reflexivity|].
  split; [vm_compute; reflexivity|].
  split; [reflexivity|discriminate].
Qed.

(** C7: the file host answers 502. *)
Lemma upload_error_witness :
  body_run upload_fails_env ∅ 0 cat_job
  = (Raise (mkExn "HTTPError" "Upload failed: 502 Bad Gateway"),
     snd (body_run upload_fails_env ∅ 0 cat_job))
  /\ last_status (events (snd (body_run upload_fails_env ∅ 0 cat_job)))
     = Some (PStr "uploading")
  /\ Substring "upload" "upload failed: 502 bad gateway"
  /\ exists final,
       job_events upload_fails_env ∅ 0 cat_job
       = events (snd (body_run upload_fails_env ∅ 0 cat_job)) ++ [final]
       /\ dict_lookup final "error_code" = Some (PStr "UPLOAD_ERROR").
Proof.
  assert (Hbody : body_run upload_fails_env ∅ 0 cat_job
                  = (Raise (mkExn "HTTPError" "Upload failed: 502 Bad Gateway"),
                     snd (body_run upload_fails_env ∅ 0 cat_job)))
    by (vm_compute; reflexivity).
  assert (Hlast : last_status (events (snd (body_run upload_fails_env ∅ 0 cat_job)))
                  = Some (PStr "uploading")) by (vm_compute; reflexivity).
  assert (Hup : Substring "upload" "upload failed: 502 bad gateway")
    by (apply contains_spec; vm_compute; reflexivity).
  split; [exact Hbody|]. split; [exact Hlast|]. split; [exact Hup|].
  destruct (upload_error_without_earlier_keyword upload_fails_env ∅ 0%nat cat_job _ _ Hbody Hlast Hup)
    as (final & Hev & Hcode & _);
    try (apply contains_false_spec; vm_compute; reflexivity).
  exists final. split; [exact Hev | exact Hcode].
Defined.

(** C8: the spec's end-to-end scenario. *)
Lemma seed_witness :
  job_input_of cat_job
  = PDict [("image_url", PStr "http://x/img.jpg"); ("prompt", PStr "a cat");
           ("resolution", PStr "480p")]
  /\ dict_lookup (List.last (job_events happy_env ∅ 0 cat_job) []) "seed"
     = Some (PInt (-1))
  /\ exists m a, In (CallGenerate m a) (job_calls happy_env ∅ 0 cat_job)
                 /\ gen_seed a = PInt (-1).
Proof.
  assert (Hin : job_input_of cat_job
                = PDict [("image_url", PStr "http://x/img.jpg"); ("prompt", PStr "a cat");
                         ("resolution", PStr "480p")]) by reflexivity.
  split; [exact Hin|].
  destruct (seed_echoed_and_passed happy_env ∅ 0%nat cat_job _ Hin) as (Hecho & Hpass & _).
  assert (Hlast : In (List.last (job_events happy_env ∅ 0 cat_job) [])
                     (job_events happy_env ∅ 0 cat_job))
    by (vm_compute; do 5 right; left; reflexivity).
  destruct (Hecho _ Hlast) as (Hseed & _ & m & a & Hcall); [vm_compute; reflexivity|].
  split; [exact Hseed|].
  exists m, a. split; [exact Hcall|].
  destruct (Hpass m a Hcall) as (_ & Hint). exact (Hint (-1) eq_refl).
Defined.



(** X3: the temporary file of a successful download. *)
Lemma temp_file_body_witness :
  In (CallTempFile ".jpg" "")
     (calls (snd (download_image happy_env (PStr "http://x/img.jpg") 30 fresh_state)))
  /\ exists resp, requests_get happy_env (PStr "http://x/img.jpg") 30 = Ok resp
                  /\ status_error resp = None
                  /\ "" = content resp.
Proof.
  assert (Hin : In (CallTempFile ".jpg" "")
                   (calls (snd (download_image happy_env (PStr "http://x/img.jpg") 30 fresh_state))))
    by (vm_compute; repeat first [left; reflexivity | right]).
  split; [exact Hin|].
  exact (proj2 (temp_file_holds_response_body happy_env (PStr "http://x/img.jpg") 30
                  fresh_state _ _ _ ".jpg" "" eq_refl eq_refl Hin)).
Defined.

(** X5: the file host answers 502. *)
Lemma upload_failure_witness :
  _upload upload_fails_env "/tmp/out.mp4" fresh_state
  = (Raise (mkExn "HTTPError" "Upload failed: 502 Bad Gateway"),
     snd (_upload upload_fails_env "/tmp/out.mp4" fresh_state))
  /\ stages (calls (snd (_upload upload_fails_env "/tmp/out.mp4" fresh_state))) = [5%nat].
Proof.
  assert (Hrun : _upload upload_fails_env "/tmp/out.mp4" fresh_state
                 = (Raise (mkExn "HTTPError" "Upload failed: 502 Bad Gateway"),
                    snd (_upload upload_fails_env "/tmp/out.mp4" fresh_state)))
    by (vm_compute; reflexivity).
  split; [exact Hrun|].
  destruct (upload_failure_is_the_cause upload_fails_env "/tmp/out.mp4" fresh_state _ _ _
              Hrun eq_refl) as [(Hopen & _) | (_ & Hstages & _)].
  - vm_compute in Hopen. discriminate Hopen.
  - exact Hstages.
Defined.

(** X7: the generation of the spec's end-to-end scenario. *)
Lemma steps_reported_witness :
  In (CallGenerate tt cat_generate_args) (job_calls happy_env ∅ 0 cat_job)
  /\ In (Some (PStr "generating")) (statuses (job_events happy_env ∅ 0 cat_job)).
Proof.
  assert (Hin : In (CallGenerate tt cat_generate_args) (job_calls happy_env ∅ 0 cat_job))
    by (vm_compute; repeat first [left; reflexivity | right]).
  split; [exact Hin|].
  exact (entered_steps_are_reported happy_env ∅ 0%nat cat_job _ "generating"
           Hin eq_refl).
Defined.

(** X8: the first job of a process constructs the model. *)
Lemma model_constructed_witness :
  In (CallWanI2V cat_model_args) (job_calls happy_env ∅ 0 cat_job)
  /\ model_path_exists happy_env (checkpoint_dir cat_model_args) = true
  /\ exists cfg, WAN_CONFIGS happy_env !! "i2v-14B" = Some cfg.
Proof.
  assert (Hin : In (CallWanI2V cat_model_args) (job_calls happy_env ∅ 0 cat_job))
    by (vm_compute; repeat first [left; reflexivity | right]).
  split; [exact Hin|].
  destruct (model_constructed_from_checkpoint happy_env ∅ 0%nat cat_job _ Hin)
    as (_ & Hfound & cfg & Hcfg & _).
  split; [exact Hfound|]. exists cfg. exact Hcfg.
Defined.

(** X10: a job at 480p. *)
Lemma resolution_witness :
  In (CallGenerate tt cat_generate_args) (job_calls happy_env ∅ 0 cat_job)
  /\ MAX_AREA_CONFIGS happy_env !! "832*480" = Some (max_area cat_generate_args)
  /\ shift cat_generate_args = 3%float.
Proof.
  assert (Hin : In (CallGenerate tt cat_generate_args) (job_calls happy_env ∅ 0 cat_job))
    by (vm_compute; repeat first [left; reflexivity | right]).
  split; [exact Hin|].
  destruct (resolution_selects_area_and_shift happy_env ∅ 0%nat cat_job _ tt
              cat_generate_args eq_refl Hin) as [(Hres & _) | (_ & Harea & Hshift)].
  - discriminate Hres.
  - split; [exact Harea | exact Hshift].
Defined.

(** X11: the settings of the spec's end-to-end scenario. *)
Lemma fixed_settings_witness :
  In (CallGenerate tt cat_generate_args) (job_calls happy_env ∅ 0 cat_job)
  /\ gen_prompt cat_generate_args = PStr "a cat"
  /\ frame_num cat_generate_args = 81
  /\ sampling_steps cat_generate_args = 40.
Proof.
  assert (Hin : In (CallGenerate tt cat_generate_args) (job_calls happy_env ∅ 0 cat_job))
    by (vm_compute; repeat first [left; reflexivity | right]).
  split; [exact Hin|].
  destruct (generate_receives_fixed_settings happy_env ∅ 0%nat cat_job _ tt
              cat_generate_args eq_refl Hin) as (Hprompt & Hframes & _ & Hsteps & _).
  split; [exact Hprompt|]. split; [exact Hframes | exact Hsteps].
Defined.

(** X12: a job without [negative] gets the default of the configuration. *)
Lemma negative_prompt_witness :
  In (CallGenerate tt cat_generate_args) (job_calls happy_env ∅ 0 cat_job)
  /\ exists cfg, job_cache happy_env ∅ 0 cat_job !! "config" = Some (ObjConfig cfg)
                 /\ n_prompt cat_generate_args = PStr (sample_neg_prompt cfg).
Proof.
  assert (Hin : In (CallGenerate tt cat_generate_args) (job_calls happy_env ∅ 0 cat_job))
    by (vm_compute; repeat first [left; reflexivity | right]).
  split; [exact Hin|].
  exact (negative_prompt_defaults_to_config happy_env ∅ 0%nat cat_job _ tt
           cat_generate_args eq_refl Hin).
Defined.

(** X13: the image of the spec's end-to-end scenario. *)
Lemma downloaded_image_witness :
  In (CallGenerate tt cat_generate_args) (job_calls happy_env ∅ 0 cat_job)
  /\ job_cache happy_env ∅ 0 cat_job !! "wan_i2v" = Some (ObjModel tt)
  /\ exists resp tmp,
       requests_get happy_env (PStr "http://x/img.jpg") 30 = Ok resp
       /\ status_error resp = None
       /\ temp_file happy_env ".jpg" (content resp) = Ok tmp
       /\ image_open happy_env tmp "RGB" = Ok (gen_image cat_generate_args).
Proof.
  assert (Hin : In (CallGenerate tt cat_generate_args) (job_calls happy_env ∅ 0 cat_job))
    by (vm_compute; repeat first [left; reflexivity | right]).
  split; [exact Hin|].
  exact (generate_receives_downloaded_image happy_env ∅ 0%nat cat_job _ tt
           cat_generate_args eq_refl Hin).
Defined.

(** X14: the file of the spec's end-to-end scenario. *)
Lemma encoded_video_witness :
  In (CallCacheVideo cat_encode_args) (job_calls happy_env ∅ 0 cat_job)
  /\ save_file cat_encode_args
     = "/tmp/wan21_i2v_" +:+ String.substring 0 8 (uuid4_hex happy_env) +:+ ".mp4"
  /\ nrow cat_encode_args = 1.
Proof.
  assert (Hin : In (CallCacheVideo cat_encode_args) (job_calls happy_env ∅ 0 cat_job))
    by (vm_compute; repeat first [left; reflexivity | right]).
  split; [exact Hin|].
  destruct (video_is_encoded_to_tmp_file happy_env ∅ 0%nat cat_job _ Hin)
    as (Hfile & Hrow & _).
  split; [exact Hfile | exact Hrow].
Defined.

(** X15: the upload of the spec's end-to-end scenario. *)
Lemma uploaded_file_witness :
  In (CallUpload "/tmp/wan21_i2v_01234567.mp4") (job_calls happy_env ∅ 0 cat_job)
  /\ exists enc,
       In (CallCacheVideo enc) (job_calls happy_env ∅ 0 cat_job)
       /\ cache_video happy_env enc = Ok tt
       /\ save_file enc = "/tmp/wan21_i2v_01234567.mp4".
Proof.
  assert (Hin : In (CallUpload "/tmp/wan21_i2v_01234567.mp4")
                   (job_calls happy_env ∅ 0 cat_job))
    by (vm_compute; repeat first [left; reflexivity | right]).
  split; [exact Hin|].
  exact (uploaded_file_is_encoded_video happy_env ∅ 0%nat cat_job _ Hin).
Defined.

(** X16: the link of the spec's end-to-end scenario. *)
Lemma completed_url_witness :
  status_of (List.last (job_events happy_env ∅ 0 cat_job) []) = Some (PStr "completed")
  /\ dict_lookup (List.last (job_events happy_env ∅ 0 cat_job) []) "video_url"
     = Some (PStr "https://files.catbox.moe/abc123.mp4").
Proof.
  assert (Hin : In (List.last (job_events happy_env ∅ 0 cat_job) [])
                   (job_events happy_env ∅ 0 cat_job))
    by (vm_compute; repeat first [left; reflexivity | right]).
  assert (Hst : status_of (List.last (job_events happy_env ∅ 0 cat_job) [])
                = Some (PStr "completed")) by (vm_compute; reflexivity).
  split; [exact Hst|].
  destruct (completed_url_is_stripped_response happy_env ∅ 0%nat cat_job _ Hin Hst)
    as (r & _ & Hpost & _ & Hurl).
  rewrite Hurl. vm_compute in Hpost. injection Hpost as <-. reflexivity.
Defined.

(** X17: the output file of the spec's end-to-end scenario is deleted. *)
Lemma output_removed_witness :
  In (CallUnlink "/tmp/wan21_i2v_01234567.mp4")
     (after_upload (job_calls happy_env ∅ 0 cat_job))
  /\ output_exists happy_env "/tmp/wan21_i2v_01234567.mp4" = true
  /\ exists r, requests_post happy_env (post_args "/tmp/wan21_i2v_01234567.mp4") = Ok r
               /\ status_error r = None.
Proof.
  assert (Hin : In (CallUnlink "/tmp/wan21_i2v_01234567.mp4")
                   (after_upload (job_calls happy_env ∅ 0 cat_job)))
    by (vm_compute; repeat first [left; reflexivity | right]).
  split; [exact Hin|].
  exact (proj2 (output_removed_only_after_upload happy_env ∅ 0%nat cat_job _ Hin)).
Defined.

(** X18: a model directory under [Downloads] that does not exist. *)
Lemma missing_model_path_witness :
  In CallLoadModel (job_calls no_checkpoint_env ∅ 0 cat_job)
  /\ stages (job_calls no_checkpoint_env ∅ 0 cat_job) = [1%nat]
  /\ exists pt ts,
       List.last (job_events no_checkpoint_env ∅ 0 cat_job) []
       = failure_event "Model path not found: /mnt/Downloads/Wan2.1-I2V"
                       "DOWNLOAD_ERROR" pt ts.
Proof.
  assert (Hin : In CallLoadModel (job_calls no_checkpoint_env ∅ 0 cat_job))
    by (vm_compute; repeat first [left; reflexivity | right]).
  assert (Hcold : model_cached (∅ : gmap string (obj unit)) = false)
    by (vm_compute; reflexivity).
  assert (Hmissing : model_path_exists no_checkpoint_env (model_path no_checkpoint_env)
                     = false) by reflexivity.
  split; [exact Hin|].
  destruct (missing_model_path_fails_job no_checkpoint_env ∅ 0%nat cat_job
              Hcold Hmissing Hin) as (Hstages & _ & pt & ts & Hlast).
  split; [exact Hstages|]. exists pt, ts. exact Hlast.
Defined.

(** X19: a second job on the process of the spec's end-to-end scenario. *)
Lemma warm_process_witness :
  cache_well_formed warm_cache
  /\ In CallLoadModel (job_calls happy_env warm_cache 7 cat_job)
  /\ exists m a, In (CallGenerate m a) (job_calls happy_env warm_cache 7 cat_job)
                 /\ warm_cache !! "wan_i2v" = Some (ObjModel m).
Proof.
  assert (Hwf : cache_well_formed warm_cache)
    by (vm_compute; split; eexists; reflexivity).
  assert (Hin : In CallLoadModel (job_calls happy_env warm_cache 7 cat_job))
    by (vm_compute; repeat first [left; reflexivity | right]).
  assert (Hwarm : model_cached warm_cache = true) by (vm_compute; reflexivity).
  split; [exact Hwf|]. split; [exact Hin|].
  exact (warm_process_reaches_generation happy_env warm_cache 7%nat cat_job _ false
           Hwf Hwarm eq_refl eq_refl Hin).
Defined.

(** X20: the seed ["42"]. *)
Lemma text_seed_witness :
  py_ge_zero (PStr "42")
  = Raise (TypeError "'>=' not supported between instances of 'str' and 'int'")
  /\ (forall m a, ~ In (CallGenerate m a) (job_calls happy_env ∅ 0 text_seed_job))
  /\ ~ In (Some (PStr "completed")) (statuses (job_events happy_env ∅ 0 text_seed_job)).
Proof.
  assert (Hseed : py_ge_zero (PStr "42")
                  = Raise (TypeError "'>=' not supported between instances of 'str' and 'int'"))
    by reflexivity.
  split; [exact Hseed|].
  exact (non_numeric_seed_never_generates happy_env ∅ 0%nat text_seed_job _ _
           eq_refl Hseed).
Defined.

(** X21: the input ["a cat"]. *)
Lemma text_input_witness :
  job_calls happy_env ∅ 0 text_input_job = []
  /\ exists pt ts,
       job_events happy_env ∅ 0 text_input_job
       = [failure_event "'str' object has no attribute 'get'" "GENERATION_ERROR" pt ts].
Proof.
  assert (Hinput : forall d, job_input_of text_input_job <> PDict d) by discriminate.
  destruct (non_mapping_input_is_generation_error happy_env ∅ 0%nat text_input_job Hinput)
    as (Hcalls & _ & Hevents).
  split; [exact Hcalls|]. eexists _, _. exact Hevents.
Defined.

(** X22: the spec's end-to-end scenario without the table of areas. *)
Lemma missing_area_witness :
  MAX_AREA_CONFIGS no_areas_env !! "832*480" = None
  /\ job_calls no_areas_env ∅ 0 cat_job = []
  /\ exists pt ts,
       job_events no_areas_env ∅ 0 cat_job
       = [failure_event "'832*480'" "GENERATION_ERROR" pt ts].
Proof.
  assert (Harea : MAX_AREA_CONFIGS no_areas_env !! "832*480" = None) by reflexivity.
  split; [exact Harea|].
  destruct (missing_area_is_generation_error no_areas_env ∅ 0%nat cat_job _
              eq_refl eq_refl Harea) as (Hcalls & Hevents).
  split; [exact Hcalls|]. eexists _, _. exact Hevents.
Defined.

(** X25: a second flag after the text. *)
Lemma first_flag_witness :
  main happy_env demo_json ["handler.py"; "-v"; "--test_input"; "{}"; "--test_input"; "[1]"]
  = main happy_env demo_json ["--test_input"; "{}"].
Proof.
  assert (Hout : ~ In "--test_input" ["handler.py"; "-v"])
    by (intros [H|[H|[]]]; discriminate H).
  exact (test_input_is_first_flag_argument happy_env demo_json ["handler.py"; "-v"]
           ["--test_input"; "[1]"] "{}" Hout).
Defined.


(** X27: a JSON list in test mode. *)
Lemma non_object_witness :
  loads demo_json "[1]" = Ok (PList [PInt 1])
  /\ main happy_env demo_json ["handler.py"; "--test_input"; "[1]"]
     = Crashed [] (AttributeError "'list' object has no attribute 'get'") fresh_state.
Proof.
  assert (Hout : ~ In "--test_input" ["handler.py"]) by (intros [H|[]]; discriminate H).
  assert (Hloads : loads demo_json "[1]" = Ok (PList [PInt 1])) by reflexivity.
  split; [exact Hloads|].
  exact (non_object_json_crashes happy_env demo_json ["handler.py"] [] "[1]" _
           Hout Hloads ltac:(discriminate)).
Defined.

(** X28: the flag without a text, and a text that is not JSON. *)
Lemma usage_errors_witness :
  main happy_env demo_json ["handler.py"; "--test_input"]
  = Exited ["Error: --test_input requires a JSON string argument"] fresh_state
  /\ main happy_env demo_json ["handler.py"; "--test_input"; "{prompt}"]
     = Exited ["Error: Invalid JSON in test_input"] fresh_state.
Proof.
  assert (Hout : ~ In "--test_input" ["handler.py"]) by (intros [H|[]]; discriminate H).
  destruct (usage_errors_run_nothing happy_env demo_json ["handler.py"] Hout)
    as (Hmissing & Hinvalid).
  split; [exact Hmissing|].
  exact (Hinvalid "{prompt}" [] _ eq_refl eq_refl).
Defined.
